(** * furios-recovery: the factory-reset engine of [main.c]

    A shallow embedding of the reset path of [src/main.c]:
    [get_slot_suffix], [drop_caches], [factory_reset],
    [perform_factory_reset], [check_password] and [sigaction_handler].

    The C code talks to the kernel and to external tools.  Those calls are
    embedded as operations of a small state monad over an explicit model of
    the machine (paths that exist, mount table, chronological log of the
    calls made); every answer the environment can give is a field of
    [World], so a theorem quantified over [World] covers every run.

    Around the reset path the file also embeds [read_int_from_file],
    [write_int_to_file], [brightness_slider_changed_cb],
    [toggle_ssh_btn_clicked_cb] and [factory_reset_password] of [main.c],
    and the console functions of [src/terminal.c]. *)

From Stdlib Require Import String Ascii List ZArith Bool Arith Lia.
Import ListNotations.
Local Open Scope string_scope.
Local Open Scope Z_scope.

(** ** C strings *)

Module CString.

Definition newline : ascii := "010"%char.

(** The two characters C writes as an escape inside a literal. *)
Definition nl : string := String newline EmptyString.
Definition dquote : string := String "034"%char EmptyString.

(** [strlen] *)
Definition strlen (s : string) : nat := String.length s.

(** [p + n] on a [char *]: the string that starts [n] characters later. *)
Fixpoint advance (n : nat) (s : string) : string :=
  match n, s with
  | O, _ => s
  | S n', String _ rest => advance n' rest
  | S _, EmptyString => EmptyString
  end.

(** [strstr(haystack, needle)]: the suffix of [haystack] that starts at
    the first occurrence of [needle]; [None] is the NULL result. *)
Fixpoint strstr (haystack needle : string) : option string :=
  if String.prefix needle haystack then Some haystack
  else match haystack with
       | EmptyString => None
       | String _ rest => strstr rest needle
       end.

(** [strncpy(dst, src, n); dst[n] = '\0'] : the first [n] characters of
    [src], fewer when [src] is shorter (the padding is NUL bytes). *)
Fixpoint strncpy (n : nat) (src : string) : string :=
  match n, src with
  | S n', String c rest => String c (strncpy n' rest)
  | _, _ => EmptyString
  end.

(** [strncmp(a, b, n) == 0] *)
Definition strncmp_eq (a b : string) (n : nat) : bool :=
  String.eqb (strncpy n a) (strncpy n b).

(** [snprintf(buf, size, ...)] keeps at most [size - 1] characters of the
    formatted text. *)
Definition snprintf (size : nat) (formatted : string) : string :=
  strncpy (size - 1) formatted.

(** The characters one [fgets] call stores: at most [n], stopping after
    the first newline. *)
Fixpoint read_line (n : nat) (file : string) : string :=
  match n, file with
  | S n', String c rest =>
      String c (if Ascii.eqb c newline then EmptyString else read_line n' rest)
  | _, _ => EmptyString
  end.

(** [fgets(buffer, size, f)] on a freshly opened file with contents
    [file]; [None] is the NULL result at end of file. *)
Definition fgets (size : nat) (file : string) : option string :=
  match file with
  | EmptyString => None
  | _ => Some (read_line (size - 1) file)
  end.

End CString.
Import CString.

(** ** The machine the recovery runs on *)

(** An ext4 file system that [mount] can attach: the regular files at its
    root and the entries of its [boot] directory in the order [readdir]
    yields them ([None]: the directory cannot be opened). *)
Record Volume := {
  vol_files : list string;
  vol_boot  : option (list string)
}.

(** Answer of the cache-drop control file to [drop_caches]. *)
Inductive CacheCtl := CacheOpenFails | CacheWriteFails | CacheWritten.

(** Everything the environment decides.  [int] results are [Z]. *)
Record World := {
  (** contents of /proc/cmdline, [None] when [fopen] fails *)
  proc_cmdline : option string;
  (** whether [malloc(3)] in [get_slot_suffix] returns a buffer *)
  malloc_ok : bool;
  (** paths that exist on the ramdisk when the run starts *)
  dev_nodes : list string;
  (** mapper nodes the dynamic-partition activation command materialises *)
  activation : list string;
  (** file system found by [mount(dev, _, "ext4", 0, NULL)];
      [None]: the mount call fails *)
  ext4_on : string -> option Volume;
  (** exit status [system(cmd)] returns *)
  sh_status : string -> Z;
  cache_ctl : CacheCtl;
  (** result of [is_lv_encrypted_with_luks] (lvm.h) on the reserved volume *)
  luks_probe : string -> Z -> Z;
  (** result of [mount_luks_lvm_droidian_helper] (lvm.h) on a password *)
  unlock_helper : string -> Z
}.

(** LVGL timer callbacks the reset path registers. *)
Inductive Callback := cb_perform_factory_reset | cb_factory_reset_password.

(** Calls with an effect outside the process, in the order they are made. *)
Inductive Event :=
| EMkdir (path : string)
| EMount (dev mnt : string) (result : Z)
| EUmount (mnt : string)
| ESystem (cmd : string) (status : Z)
| ECacheDrop                       (* write(fd, "1", 1) to drop_caches *)
| EOpendir (path : string) (opened : bool)
| EClosedir (path : string)
| EPrint (text : string)           (* printf *)
| EMsgbox (text : string) (buttons : list string)
| EMsgboxClose (text : string)
| ETimer (cb : Callback) (period_ms : Z)
| EPasswordScreen                  (* decrypt(): the password entry screen *)
| EUnlock (password : string) (result : Z)
| ETerminalReset                   (* ul_terminal_reset_current_terminal *)
| EExit (code : Z).

(** State of the process and of the machine it runs on. *)
Record Sys := mkSys {
  paths : list string;               (* paths outside the scratch mounts *)
  mtab  : list (string * Volume);    (* mount table, newest first *)
  trace : list Event;
  attempt_count : Z                  (* the static of check_password *)
}.

Definition boot_state (w : World) : Sys :=
  {| paths := dev_nodes w; mtab := []; trace := []; attempt_count := 0 |}.

Definition set_paths (p : list string) (s : Sys) : Sys :=
  {| paths := p; mtab := mtab s; trace := trace s;
     attempt_count := attempt_count s |}.

Definition set_mtab (tab : list (string * Volume)) (s : Sys) : Sys :=
  {| paths := paths s; mtab := tab; trace := trace s;
     attempt_count := attempt_count s |}.

Definition set_attempt_count (n : Z) (s : Sys) : Sys :=
  {| paths := paths s; mtab := mtab s; trace := trace s;
     attempt_count := n |}.

Definition emit (e : Event) (s : Sys) : Sys :=
  {| paths := paths s; mtab := mtab s; trace := trace s ++ [e];
     attempt_count := attempt_count s |}.

(** The mounted volume a path lives on, with the path relative to it. *)
Fixpoint resolve (path : string) (tab : list (string * Volume))
  : option (Volume * string) :=
  match tab with
  | [] => None
  | (mnt, v) :: tab' =>
      if String.prefix (mnt ++ "/") path
      then Some (v, advance (strlen mnt + 1) path)
      else resolve path tab'
  end.

Definition mem (x : string) (l : list string) : bool :=
  existsb (String.eqb x) l.

Definition path_exists (path : string) (s : Sys) : bool :=
  match resolve path (mtab s) with
  | Some (v, rel) => mem rel (vol_files v)
  | None => mem path (paths s)
  end.

(** Drop the newest mount on [mnt]. *)
Fixpoint detach (mnt : string) (tab : list (string * Volume))
  : list (string * Volume) :=
  match tab with
  | [] => []
  | (m, v) :: tab' =>
      if String.eqb m mnt then tab' else (m, v) :: detach mnt tab'
  end.

(** ** A state monad with early [return] *)

(** A computation inside a C function whose return type is [R]: it either
    goes on with a value ([inr]) or the function has returned ([inl]). *)
Definition M (R A : Type) : Type := Sys -> (R + A) * Sys.

Definition ret {R A} (a : A) : M R A := fun s => (inr a, s).

(** The C statement [return r;] *)
Definition return_ {R A} (r : R) : M R A := fun s => (inl r, s).

Definition bind {R A B} (m : M R A) (k : A -> M R B) : M R B :=
  fun s =>
    match m s with
    | (inl r, s') => (inl r, s')
    | (inr a, s') => k a s'
    end.

Declare Scope prog_scope.
Delimit Scope prog_scope with prog.
Notation "x <- m ;; k" := (bind m (fun x => k))
  (at level 61, m at next level, right associativity) : prog_scope.
Notation "m ;; k" := (bind m (fun _ => k))
  (at level 61, right associativity) : prog_scope.
Local Open Scope prog_scope.

(** Run a function body to its result. *)
Definition run {R} (body : M R R) (s : Sys) : R * Sys :=
  match body s with
  | (inl r, s') => (r, s')
  | (inr r, s') => (r, s')
  end.

(** A call of one function from the body of another. *)
Definition call {R R'} (body : M R R) : M R' R :=
  fun s => let (r, s') := run body s in (inr r, s').

(** [if (c) { body }] *)
Definition when {R} (c : bool) (body : M R unit) : M R unit :=
  if c then body else ret tt.

Definition log {R} (e : Event) : M R unit := fun s => (inr tt, emit e s).

Definition printf {R} (text : string) : M R unit := log (EPrint text).

(** Reads and writes of [static int attempt_count]. *)
Definition load_attempt_count {R} : M R Z :=
  fun s => (inr (attempt_count s), s).

Definition store_attempt_count {R} (n : Z) : M R unit :=
  fun s => (inr tt, set_attempt_count n s).

(** ** System calls *)

Section Syscalls.

Variable w : World.
Context {R : Type}.

(** [stat(path, &buffer)] *)
Definition stat (path : string) : M R Z :=
  fun s => (inr (if path_exists path s then 0 else -1), s).

(** [mkdir(path, 0755)]; its result is never read. *)
Definition mkdir (path : string) : M R unit := log (EMkdir path).

(** [mount(dev, mnt, "ext4", 0, NULL)] *)
Definition mount (dev mnt : string) : M R Z :=
  fun s =>
    match ext4_on w dev with
    | Some v =>
        (inr 0, emit (EMount dev mnt 0) (set_mtab ((mnt, v) :: mtab s) s))
    | None => (inr (-1), emit (EMount dev mnt (-1)) s)
    end.

(** [umount(mnt)]; its result is never read. *)
Definition umount (mnt : string) : M R unit :=
  fun s =>
    (inr tt, emit (EUmount mnt) (set_mtab (detach mnt (mtab s)) s)).

(** The one command whose effect the reset path later observes. *)
Definition dmsetup_cmd : string :=
  "dmsetup create --concise " ++ dquote
    ++ "$(parse-android-dynparts /dev/disk/by-partlabel/super)" ++ dquote.

(** [system(cmd)]: the activation command materialises mapper nodes; the
    tar and dd pipelines write partitions, of which only the exit status
    is seen again. *)
Definition system (cmd : string) : M R Z :=
  fun s =>
    (inr (sh_status w cmd),
     emit (ESystem cmd (sh_status w cmd))
       (if String.eqb cmd dmsetup_cmd
        then set_paths (paths s ++ activation w) s else s)).

(** [opendir(path)]: the entries [readdir] will yield, or NULL. *)
Definition opendir (path : string) : M R (option (list string)) :=
  fun s =>
    let dir := match resolve path (mtab s) with
               | Some (v, rel) =>
                   if String.eqb rel "boot" then vol_boot v else None
               | None => None
               end in
    (inr dir,
     emit (EOpendir path match dir with Some _ => true | None => false end) s).

Definition closedir (path : string) : M R unit := log (EClosedir path).

(** [mount_luks_lvm_droidian_helper(password)] (lvm.h) *)
Definition mount_luks_lvm_droidian_helper (password : string) : M R Z :=
  fun s =>
    (inr (unlock_helper w password),
     emit (EUnlock password (unlock_helper w password)) s).

(** [is_lv_encrypted_with_luks(path, print_bytes)] (lvm.h) *)
Definition is_lv_encrypted_with_luks (path : string) (print_bytes : Z)
  : M R Z :=
  fun s => (inr (luks_probe w path print_bytes), s).

End Syscalls.

(** ** The reset path of main.c *)

Section Recovery.

Variable w : World.

Definition slot_key : string := "androidboot.slot_suffix=".

(** [static char* get_slot_suffix()]; [None] is the NULL result.  The
    [perror] diagnostics of this file go to stderr and are not part of
    the log. *)
Definition get_slot_suffix : option string :=
  match proc_cmdline w with
  | None => None
  | Some cmdline =>
      match fgets 1024 cmdline with
      | Some buffer =>
          match strstr buffer slot_key with
          | Some token =>
              let token := advance (strlen slot_key) token in
              if malloc_ok w then Some (strncpy 2 token) else None
          | None => None
          end
      | None => None
      end
  end.

(** Lines 694-699 of [factory_reset]: the suffix the run works with;
    NULL is replaced by a copy of the empty string ([strdup], whose result
    the code uses unchecked, is taken to succeed). *)
Definition slot_suffix_or_default : string :=
  match get_slot_suffix with
  | Some slot_suffix => slot_suffix
  | None => EmptyString
  end.

(** [static int drop_caches()] *)
Definition drop_caches : M Z Z :=
  match cache_ctl w with
  | CacheOpenFails => return_ (-1)
  | CacheWriteFails => return_ (-1)
  | CacheWritten =>
      log ECacheDrop;;
      return_ 0
  end.

Definition super_dev : string := "/dev/disk/by-partlabel/super".
Definition system_a_dev : string := "/dev/mapper/dynpart-system_a".
Definition system_b_dev : string := "/dev/mapper/dynpart-system_b".
Definition rootfs_dev : string := "/dev/mapper/droidian-droidian--rootfs".
Definition system_mnt : string := "/system_mnt".
Definition rootfs_mnt : string := "/rootfs_mnt".

(** [*slot_suffix ? a : b] *)
Definition if_set {A} (slot_suffix : string) (a b : A) : A :=
  match slot_suffix with EmptyString => b | String _ _ => a end.

(** The text of the four messages about a failed flash. *)
Definition flash_failed (what slot_suffix : string) : string :=
  "Failed to flash " ++ what ++ " image"
    ++ if_set slot_suffix " to slot suffix " EmptyString
    ++ if_set slot_suffix slot_suffix EmptyString ++ nl.

Definition tar_cmd (archive : string) : string :=
  "tar -xzOf " ++ archive ++ " | dd of=/dev/disk/by-partlabel/userdata bs=4M".

(** The dd command of lines 755-757 and 771-773, from the system slot. *)
Definition dd_system (img part slot_suffix : string) : string :=
  "dd if=/system_mnt/" ++ img ++ " of=/dev/disk/by-partlabel/" ++ part
    ++ slot_suffix ++ " bs=4M".

(** The dd command of lines 828-830 and 848-850, from the fallback; both
    file names are quoted. *)
Definition dd_rootfs (path part slot_suffix : string) : string :=
  "dd if=" ++ dquote ++ path ++ dquote ++ " of=" ++ dquote
    ++ "/dev/disk/by-partlabel/" ++ part ++ slot_suffix ++ dquote ++ " bs=4M".

(** One [while ((entry = readdir(dir)) != NULL)] loop of the fallback:
    the file-name buffer afterwards (it starts empty, and the first entry
    whose name begins with [name] is copied and ends the loop). *)
Fixpoint scan_boot_dir (name : string) (entries : list string) : string :=
  match entries with
  | [] => EmptyString
  | d_name :: rest =>
      if strncmp_eq d_name name (strlen name)
      then strncpy (256 - 1) d_name
      else scan_boot_dir name rest
  end.

(** Lines 703-712: activate the dynamic partitions when only the super
    device is there.  The status of [system(cmd)] is dropped. *)
Definition activate_dynparts : M Z unit :=
  st <- stat super_dev;;
  when (st =? 0)
    (st <- stat system_a_dev;;
     when (negb (st =? 0))
       (st <- stat system_b_dev;;
        when (negb (st =? 0))
          (let cmd := snprintf 1024 dmsetup_cmd in
           system w cmd;; ret tt))).

(** Lines 714-733: mount the system slot on /system_mnt. *)
Definition mount_system_slot : M Z unit :=
  mkdir system_mnt;;
  st <- stat system_a_dev;;
  if st =? 0 then
    result <- mount w system_a_dev system_mnt;;
    when (negb (result =? 0))
      (printf ("Failed to mount dynpart-system_a" ++ nl);;
       return_ (-1))
  else
    st <- stat system_b_dev;;
    if st =? 0 then
      result <- mount w system_b_dev system_mnt;;
      when (negb (result =? 0))
        (printf ("Failed to mount dynpart-system_b" ++ nl);;
         return_ (-1))
    else
      printf ("Failed to mount dynpart-system, block device doesn't not exist" ++ nl);;
      return_ (-1).

(** Lines 735-744: the command that extracts the userdata archive. *)
Definition select_userdata : M Z string :=
  st <- stat "/system_mnt/userdata.img.tar.gz";;
  if st =? 0 then
    ret (snprintf 1024 (tar_cmd "/system_mnt/userdata.img.tar.gz"))
  else
    st <- stat "/system_mnt/userdata-raw.img.tar.gz";;
    if st =? 0 then
      ret (snprintf 1024 (tar_cmd "/system_mnt/userdata-raw.img.tar.gz"))
    else
      printf ("Failed to find userdata archive" ++ nl);;
      umount system_mnt;;
      return_ (-1).

(** Lines 746-752: extract and write userdata. *)
Definition write_userdata (cmd : string) : M Z unit :=
  result <- system w cmd;;
  when (negb (result =? 0))
    (printf ("Failed to extract and write userdata" ++ nl);;
     umount system_mnt;;
     return_ (-1)).

(** Lines 754-768 with [img] = boot.img and [part] = boot, lines 770-784
    with dtbo.img and dtbo: flash one image from the system slot. *)
Definition flash_from_system (img part slot_suffix : string) : M Z unit :=
  st <- stat ("/system_mnt/" ++ img);;
  if st =? 0 then
    let cmd := snprintf 1024 (dd_system img part slot_suffix) in
    result <- system w cmd;;
    if negb (result =? 0)
    then printf (flash_failed part slot_suffix)
    else printf ("Flashed " ++ img ++ " from /system_mnt" ++ nl)
  else
    printf ("No /system_mnt/" ++ img ++ " found." ++ nl).

(** Lines 824-842 for boot, 844-862 for dtbo: flash one image that the
    scan of /rootfs_mnt/boot left in [img_file]. *)
Definition flash_from_rootfs (img_file img part slot_suffix : string)
  : M Z unit :=
  if_set img_file
    (let path := snprintf 512 ("/rootfs_mnt/boot/" ++ img_file) in
     let cmd := snprintf 1024 (dd_rootfs path part slot_suffix) in
     result <- system w cmd;;
     if negb (result =? 0)
     then printf (flash_failed part slot_suffix)
     else printf ("Flashed " ++ img ++ " from /rootfs_mnt" ++ nl))
    (printf ("Failed to find " ++ part ++ " image in the rootfs" ++ nl)).

(** Lines 786-868: the rootfs fallback. *)
Definition flash_from_fallback (slot_suffix : string) : M Z unit :=
  missing <- (st <- stat "/system_mnt/boot.img";;
              if negb (st =? 0) then ret true
              else st <- stat "/system_mnt/dtbo.img";;
                   ret (negb (st =? 0)));;
  when missing
    (st <- stat rootfs_dev;;
     if st =? 0 then
       mkdir rootfs_mnt;;
       result <- mount w rootfs_dev rootfs_mnt;;
       when (negb (result =? 0))
         (printf ("Failed to mount droidian-droidian--rootfs" ++ nl);;
          return_ (-1));;
       dir <- opendir "/rootfs_mnt/boot";;
       match dir with
       | None =>
           printf ("Failed to opendir /rootfs_mnt/boot" ++ nl);;
           umount rootfs_mnt;;
           return_ (-1)
       | Some entries =>
           let bootimg_file := scan_boot_dir "boot.img" entries in
           (* rewinddir(dir) *)
           let dtboimg_file := scan_boot_dir "dtbo.img" entries in
           closedir "/rootfs_mnt/boot";;
           flash_from_rootfs bootimg_file "boot.img" "boot" slot_suffix;;
           flash_from_rootfs dtboimg_file "dtbo.img" "dtbo" slot_suffix;;
           umount rootfs_mnt
       end
     else
       printf ("No /system_mnt images found and /dev/mapper/droidian-droidian--rootfs not available." ++ nl)).

(** [static int factory_reset(void)], lines 686-874, as the sequence of
    its blocks.  The [free(slot_suffix)] before each [return] has no
    counterpart: memory is not part of the model. *)
Definition factory_reset : M Z Z :=
  let slot_suffix := slot_suffix_or_default in
  call drop_caches;;
  activate_dynparts;;
  mount_system_slot;;
  cmd <- select_userdata;;
  write_userdata cmd;;
  flash_from_system "boot.img" "boot" slot_suffix;;
  flash_from_system "dtbo.img" "dtbo" slot_suffix;;
  flash_from_fallback slot_suffix;;
  umount system_mnt;;
  call drop_caches;;
  return_ 0.

Definition resetting : string := "Resetting device...".

Definition reserved_volume : string := "/dev/droidian/droidian-reserved".

(** The box shown once three wrong passwords are counted. *)
Definition lockout_box : Event :=
  EMsgbox "Maximum password attempt reached." [].

(** The two boxes that end a reset, each with its one button. *)
Definition failed_box : Event := EMsgbox "Failed to factory reset" ["OK"].

Definition success_box : Event :=
  EMsgbox "Successfully reset to factory settings" ["OK"].

(** [static void perform_factory_reset(lv_timer_t *timer)]; the timer
    carries the "Resetting device..." box. *)
Definition perform_factory_reset : M unit unit :=
  let lvm_device_path := reserved_volume in
  let print_bytes := 64 in
  result <- is_lv_encrypted_with_luks w lvm_device_path print_bytes;;
  if result =? -1 then
    log (EMsgboxClose resetting);;
    log failed_box
  else
    when (result =? 1)
      (log EPasswordScreen;;
       log (EMsgboxClose resetting);;
       return_ tt);;
    factory_reset_result <- call factory_reset;;
    log (EMsgboxClose resetting);;
    if factory_reset_result =? 0
    then log success_box
    else log failed_box.


Definition EXIT_SUCCESS : Z := 0.

(** Arithmetic of a 32-bit [int], two's complement: what the addition of
    the target does where C leaves overflow undefined. *)
Definition wrap_int (z : Z) : Z := (z + 2 ^ 31) mod 2 ^ 32 - 2 ^ 31.

(** [static void check_password(lv_obj_t *textarea)], on the text of the
    text area. *)
Definition check_password (password : string) : M unit unit :=
  result <- mount_luks_lvm_droidian_helper w password;;
  if result =? EXIT_SUCCESS then
    log (EMsgbox resetting []);;
    log (ETimer cb_factory_reset_password 500)
  else
    when (result =? 2)
      (n <- load_attempt_count;;
       store_attempt_count (wrap_int (n + 1));;    (* attempt_count++ *)
       n <- load_attempt_count;;
       when (n >=? 3)
         (log lockout_box)).

(** [static void sigaction_handler(int signum)]: [exit] does not return. *)
Definition sigaction_handler : M unit unit :=
  log ETerminalReset;;
  log (EExit 0);;
  return_ tt.

End Recovery.

(** ** Runs and what is observed of them *)

(** One reset run on a freshly booted recovery. *)
Definition reset_run (w : World) : Z * Sys :=
  run (factory_reset w) (boot_state w).

Definition reset_result (w : World) : Z := fst (reset_run w).

Definition reset_trace (w : World) : list Event := trace (snd (reset_run w)).

(** The timer callback [perform_factory_reset] on a freshly booted
    recovery. *)
Definition perform_run (w : World) : Sys :=
  snd (run (perform_factory_reset w) (boot_state w)).

(** A sequence of password submissions: one [check_password] call per
    LV_EVENT_READY of the text area. *)
Fixpoint submit (w : World) (passwords : list string) : M unit unit :=
  match passwords with
  | [] => ret tt
  | password :: rest => call (check_password w password);; submit w rest
  end.

Definition gate_run (w : World) (passwords : list string) : Sys :=
  snd (run (submit w passwords) (boot_state w)).

Fixpoint remove_first (x : string) (l : list string) : list string :=
  match l with
  | [] => []
  | y :: l' => if String.eqb y x then l' else y :: remove_first x l'
  end.

(** The scratch-mount ledger of a log: starting from the mount points in
    [open], a successful [mount] opens its mount point and an [umount]
    closes one that is open.  [None]: some [umount] had no open mount to
    close.  [ledger [] tr = Some []] says that every mount made in [tr] is
    matched by exactly one later unmount and nothing else is unmounted. *)
Fixpoint ledger (open : list string) (tr : list Event)
  : option (list string) :=
  match tr with
  | [] => Some open
  | EMount _ mnt result :: tr' =>
      ledger (if result =? 0 then mnt :: open else open) tr'
  | EUmount mnt :: tr' =>
      if mem mnt open then ledger (remove_first mnt open) tr' else None
  | _ :: tr' => ledger open tr'
  end.

Definition occurrences (x : string) (l : list string) : nat :=
  List.length (filter (String.eqb x) l).

Definition is_mount_on (mnt : string) (e : Event) : bool :=
  match e with
  | EMount _ m result => String.eqb m mnt && (result =? 0)
  | _ => false
  end.

Definition is_umount_on (mnt : string) (e : Event) : bool :=
  match e with
  | EUmount m => String.eqb m mnt
  | _ => false
  end.

(** Successful mounts on [mnt] in a log, and unmounts of [mnt]. *)
Definition mounts_on (mnt : string) (tr : list Event) : nat :=
  List.length (filter (is_mount_on mnt) tr).

Definition umounts_on (mnt : string) (tr : list Event) : nat :=
  List.length (filter (is_umount_on mnt) tr).

(** Events that are neither a mount nor an unmount. *)
Definition no_mount (e : Event) : bool :=
  match e with
  | EMount _ _ _ | EUmount _ => false
  | _ => true
  end.

(** What [sigaction_handler] adds to the log. *)
Definition signal_events : list Event :=
  trace (snd (run sigaction_handler (mkSys [] [] [] 0))).

(** The log of a reset run that SIGINT or SIGTERM ends after [k] of its
    calls: the handler runs and the process exits. *)
Definition interrupted (w : World) (k : nat) : list Event :=
  (firstn k (reset_trace w) ++ signal_events)%list.

(** The line of /proc/cmdline that [get_slot_suffix] reads into its
    1024-byte buffer; [None] when the file cannot be opened or is empty. *)
Definition cmdline_line (w : World) : option string :=
  match proc_cmdline w with
  | Some cmdline => fgets 1024 cmdline
  | None => None
  end.

(** The occurrence of [key] that follows [before] is the first one in
    [line]. *)
Definition first_at (key line before : string) : Prop :=
  forall b a, line = b ++ key ++ a -> (String.length before <= String.length b)%nat.

(** *** Sample machines *)

(** A world with the given /proc/cmdline and nothing else: no device, no
    file system, every command succeeds. *)
Definition sample_world (cmdline : option string) : World :=
  {| proc_cmdline := cmdline;
     malloc_ok := true;
     dev_nodes := [];
     activation := [];
     ext4_on := fun _ => None;
     sh_status := fun _ => 0;
     cache_ctl := CacheWritten;
     luks_probe := fun _ _ => 0;
     unlock_helper := fun _ => 2 |}.

(** A system slot with the userdata archive and dtbo.img, no boot.img. *)
Definition slot_volume : Volume :=
  {| vol_files := ["userdata.img.tar.gz"; "dtbo.img"]; vol_boot := None |}.

(** A root file system whose boot directory holds versioned images. *)
Definition rootfs_volume : Volume :=
  {| vol_files := [];
     vol_boot := Some ["."; ".."; "boot.img-5.10"; "dtbo.img-5.10"; "boot.img"] |}.

(** Slot _a, logical partitions already active, no rootfs volume. *)
Definition world_single : World :=
  {| proc_cmdline :=
       Some ("console=tty0 androidboot.slot_suffix=_a quiet" ++ nl);
     malloc_ok := true;
     dev_nodes := [system_a_dev];
     activation := [];
     ext4_on := fun dev =>
       if String.eqb dev system_a_dev then Some slot_volume else None;
     sh_status := fun _ => 0;
     cache_ctl := CacheWritten;
     luks_probe := fun _ _ => 0;
     unlock_helper := fun password =>
       if String.eqb password "secret" then 0 else 2 |}.

(** Slot _b behind a super partition that still has to be activated, with
    a rootfs volume to fall back on. *)
Definition world_dynamic : World :=
  {| proc_cmdline :=
       Some ("console=tty0 androidboot.slot_suffix=_b quiet" ++ nl);
     malloc_ok := true;
     dev_nodes := [super_dev; rootfs_dev];
     activation := [system_b_dev];
     ext4_on := fun dev =>
       if String.eqb dev system_b_dev then Some slot_volume
       else if String.eqb dev rootfs_dev then Some rootfs_volume
       else None;
     sh_status := fun _ => 0;
     cache_ctl := CacheWritten;
     luks_probe := fun _ _ => 1;
     unlock_helper := fun password =>
       if String.eqb password "secret" then 0 else 2 |}.

(** [world_single] with a rootfs device node that cannot be mounted. *)
Definition world_bad_rootfs : World :=
  {| proc_cmdline := proc_cmdline world_single;
     malloc_ok := true;
     dev_nodes := [system_a_dev; rootfs_dev];
     activation := [];
     ext4_on := ext4_on world_single;
     sh_status := fun _ => 0;
     cache_ctl := CacheWritten;
     luks_probe := fun _ _ => -1;
     unlock_helper := unlock_helper world_single |}.

(** No userdata archive on the system slot. *)
Definition world_no_archive : World :=
  {| proc_cmdline := proc_cmdline world_single;
     malloc_ok := true;
     dev_nodes := [system_a_dev];
     activation := [];
     ext4_on := fun dev =>
       if String.eqb dev system_a_dev
       then Some {| vol_files := ["boot.img"; "dtbo.img"]; vol_boot := None |}
       else None;
     sh_status := fun _ => 0;
     cache_ctl := CacheWritten;
     luks_probe := fun _ _ => 0;
     unlock_helper := unlock_helper world_single |}.

(** The userdata archive alone on the system slot, and a rootfs volume
    whose boot directory holds no image. *)
Definition world_no_images : World :=
  {| proc_cmdline := proc_cmdline world_single;
     malloc_ok := true;
     dev_nodes := [system_a_dev; rootfs_dev];
     activation := [];
     ext4_on := fun dev =>
       if String.eqb dev system_a_dev
       then Some {| vol_files := ["userdata-raw.img.tar.gz"]; vol_boot := None |}
       else if String.eqb dev rootfs_dev
       then Some {| vol_files := []; vol_boot := Some ["."; ".."; "vmlinuz"] |}
       else None;
     sh_status := fun _ => 0;
     cache_ctl := CacheWritten;
     luks_probe := fun _ _ => 0;
     unlock_helper := unlock_helper world_single |}.

(** The two extraction commands of lines 736 and 738. *)
Definition userdata_cmds : list string :=
  [snprintf 1024 (tar_cmd "/system_mnt/userdata.img.tar.gz");
   snprintf 1024 (tar_cmd "/system_mnt/userdata-raw.img.tar.gz")].

(** The extract-and-write step was run and exited with [status]. *)
Definition userdata_step (status : Z) (tr : list Event) : Prop :=
  exists cmd, In cmd userdata_cmds /\ In (ESystem cmd status) tr.

(** A shell command that names the partition [part] by label. *)
Definition targets (part cmd : string) : bool :=
  match strstr cmd ("/dev/disk/by-partlabel/" ++ part) with
  | Some _ => true
  | None => false
  end.

(** A write to a boot or dtbo partition. *)
Definition is_image_write (e : Event) : bool :=
  match e with
  | ESystem cmd _ => targets "boot" cmd || targets "dtbo" cmd
  | _ => false
  end.

(** The two images the fallback looks for. *)
Inductive Image := Boot | Dtbo.

Definition image_name (i : Image) : string :=
  match i with Boot => "boot.img" | Dtbo => "dtbo.img" end.

Definition image_part (i : Image) : string :=
  match i with Boot => "boot" | Dtbo => "dtbo" end.

(** First entry, in enumeration order, whose name begins with [name]. *)
Definition first_match (name : string) (entries : list string)
  : option string :=
  find (String.prefix name) entries.

(** The same world, except for the exit status of one command. *)
Definition with_status (w : World) (cmd : string) (status : Z) : World :=
  {| proc_cmdline := proc_cmdline w;
     malloc_ok := malloc_ok w;
     dev_nodes := dev_nodes w;
     activation := activation w;
     ext4_on := ext4_on w;
     sh_status := fun c => if String.eqb c cmd then status else sh_status w c;
     cache_ctl := cache_ctl w;
     luks_probe := luks_probe w;
     unlock_helper := unlock_helper w |}.

Definition is_activation (e : Event) : bool :=
  match e with
  | ESystem cmd _ => String.eqb cmd dmsetup_cmd
  | _ => false
  end.

(** The log without the calls of the activation tool. *)
Definition besides_activation (tr : list Event) : list Event :=
  filter (fun e => negb (is_activation e)) tr.

(** Mount calls on /system_mnt. *)
Definition is_system_mount (e : Event) : bool :=
  match e with
  | EMount _ mnt _ => String.eqb mnt system_mnt
  | _ => false
  end.

(** ** What the blocks of [factory_reset] branch on *)

Section Observations.

Variable w : World.

Definition cache_events : list Event :=
  match cache_ctl w with CacheWritten => [ECacheDrop] | _ => [] end.

Definition cache_result : Z :=
  match cache_ctl w with CacheWritten => 0 | _ => -1 end.

(** The test of lines 703-707. *)
Definition needs_activation (p : list string) : bool :=
  mem super_dev p && negb (mem system_a_dev p) && negb (mem system_b_dev p).

Definition activation_events : list Event :=
  if needs_activation (dev_nodes w)
  then [ESystem dmsetup_cmd (sh_status w dmsetup_cmd)] else [].

Definition paths_after_activation : list string :=
  if needs_activation (dev_nodes w)
  then dev_nodes w ++ activation w else dev_nodes w.

(** The device lines 715-733 pick, with the name used in the message. *)
Definition slot_choice (p : list string) : option (string * string) :=
  if mem system_a_dev p then Some (system_a_dev, "dynpart-system_a")
  else if mem system_b_dev p then Some (system_b_dev, "dynpart-system_b")
  else None.

(** The archive lines 735-738 pick. *)
Definition userdata_archive (v : Volume) : option string :=
  if mem "userdata.img.tar.gz" (vol_files v)
  then Some "/system_mnt/userdata.img.tar.gz"
  else if mem "userdata-raw.img.tar.gz" (vol_files v)
  then Some "/system_mnt/userdata-raw.img.tar.gz"
  else None.

Definition flash_system_events (img part sfx : string) (v : Volume)
  : list Event :=
  if mem img (vol_files v) then
    let cmd := snprintf 1024 (dd_system img part sfx) in
    [ESystem cmd (sh_status w cmd);
     EPrint (if sh_status w cmd =? 0
             then "Flashed " ++ img ++ " from /system_mnt" ++ nl
             else flash_failed part sfx)]
  else [EPrint ("No /system_mnt/" ++ img ++ " found." ++ nl)].

Definition rootfs_cmd (img_file part sfx : string) : string :=
  snprintf 1024
    (dd_rootfs (snprintf 512 ("/rootfs_mnt/boot/" ++ img_file)) part sfx).

Definition flash_rootfs_events (img_file img part sfx : string)
  : list Event :=
  if_set img_file
    (let cmd := rootfs_cmd img_file part sfx in
     [ESystem cmd (sh_status w cmd);
      EPrint (if sh_status w cmd =? 0
              then "Flashed " ++ img ++ " from /rootfs_mnt" ++ nl
              else flash_failed part sfx)])
    [EPrint ("Failed to find " ++ part ++ " image in the rootfs" ++ nl)].

(** The test of lines 786-787. *)
Definition image_missing (v : Volume) : bool :=
  negb (mem "boot.img" (vol_files v)) || negb (mem "dtbo.img" (vol_files v)).

(** Whether the fallback of lines 786-868 is entered. *)
Definition fallback_entered (p : list string) (v : Volume) : bool :=
  image_missing v && mem rootfs_dev p.

(** Whether it leaves through one of its two [return -1]. *)
Definition fallback_fails (p : list string) (v : Volume) : bool :=
  fallback_entered p v &&
  match ext4_on w rootfs_dev with
  | Some vr => match vol_boot vr with Some _ => false | None => true end
  | None => true
  end.

Definition fallback_events (sfx : string) (p : list string) (v : Volume)
  : list Event :=
  if image_missing v then
    if mem rootfs_dev p then
      EMkdir rootfs_mnt ::
      match ext4_on w rootfs_dev with
      | None =>
          [EMount rootfs_dev rootfs_mnt (-1);
           EPrint ("Failed to mount droidian-droidian--rootfs" ++ nl)]
      | Some vr =>
          EMount rootfs_dev rootfs_mnt 0 ::
          match vol_boot vr with
          | None =>
              [EOpendir "/rootfs_mnt/boot" false;
               EPrint ("Failed to opendir /rootfs_mnt/boot" ++ nl);
               EUmount rootfs_mnt]
          | Some entries =>
              [EOpendir "/rootfs_mnt/boot" true;
               EClosedir "/rootfs_mnt/boot"]
              ++ flash_rootfs_events (scan_boot_dir "boot.img" entries)
                   "boot.img" "boot" sfx
              ++ flash_rootfs_events (scan_boot_dir "dtbo.img" entries)
                   "dtbo.img" "dtbo" sfx
              ++ [EUmount rootfs_mnt]
          end
      end
    else
      [EPrint ("No /system_mnt images found and /dev/mapper/droidian-droidian--rootfs not available." ++ nl)]
  else [].

(** The whole run in one expression: result, mount table left behind, and
    log.  [factory_reset_run] below proves that this is what
    [factory_reset] computes. *)
Definition reset_summary : Z * list (string * Volume) * list Event :=
  let sfx := slot_suffix_or_default w in
  let p := paths_after_activation in
  let t0 := (cache_events ++ activation_events ++ [EMkdir system_mnt])%list in
  match slot_choice p with
  | None =>
      (-1, [],
       (t0 ++ [EPrint ("Failed to mount dynpart-system, block device doesn't not exist" ++ nl)])%list)
  | Some (dev, name) =>
      match ext4_on w dev with
      | None =>
          (-1, [],
           (t0 ++ [EMount dev system_mnt (-1);
                   EPrint ("Failed to mount " ++ name ++ nl)])%list)
      | Some v =>
          let t1 := (t0 ++ [EMount dev system_mnt 0])%list in
          match userdata_archive v with
          | None =>
              (-1, [],
               (t1 ++ [EPrint ("Failed to find userdata archive" ++ nl);
                       EUmount system_mnt])%list)
          | Some archive =>
              let cmd := snprintf 1024 (tar_cmd archive) in
              let t2 := (t1 ++ [ESystem cmd (sh_status w cmd)])%list in
              if sh_status w cmd =? 0 then
                let t3 := (t2
                  ++ flash_system_events "boot.img" "boot" sfx v
                  ++ flash_system_events "dtbo.img" "dtbo" sfx v
                  ++ fallback_events sfx p v)%list in
                if fallback_fails p v
                then (-1, [(system_mnt, v)], t3)
                else (0, [], (t3 ++ [EUmount system_mnt] ++ cache_events)%list)
              else
                (-1, [],
                 (t2 ++ [EPrint ("Failed to extract and write userdata" ++ nl);
                         EUmount system_mnt])%list)
          end
      end
  end.

End Observations.

(** * The rest of the program

    The functions of [main.c] and [terminal.c] around the reset path:
    the integers kept in sysfs files and the brightness slider, the
    console descriptor, the SSH button; and further observations of a
    reset run. *)

(** ** Integers kept in files ([read_int_from_file], [write_int_to_file])

    The brightness controls read and write decimal numbers in sysfs files.
    A file is its contents; [None] is a path [fopen(path, "r")] fails on.
    What is beyond the program (whether a file can be opened for writing,
    whether [fprintf] succeeds, the text of [strerror(errno)] and the
    width of [long]) is a field of [Medium]. *)

Inductive IoEvent :=
| IoPrint (text : string)                    (* printf *)
| IoOpen (path mode : string) (ok : bool)    (* fopen *)
| IoClose (path : string)                    (* fclose *)
| IoSliderSet (value : Z).                   (* lv_slider_set_value *)

Record Medium := {
  LONG_MAX : Z;                       (* largest [long] of the target *)
  creatable : string -> bool;         (* fopen(path, "w") succeeds *)
  fprintf_ok : string -> bool;        (* fprintf to that file succeeds *)
  strerror_errno : string
}.

Record Disk := mkDisk {
  files : string -> option string;
  io_log : list IoEvent
}.

Definition io_emit (e : IoEvent) (d : Disk) : Disk :=
  mkDisk (files d) (io_log d ++ [e]).


(** [isspace] in the C locale. *)
Definition isspace (c : ascii) : bool :=
  let n := nat_of_ascii c in
  Nat.eqb n 32 || (Nat.leb 9 n && Nat.leb n 13).

Definition digit_of (c : ascii) : option Z :=
  let n := nat_of_ascii c in
  if Nat.leb 48 n && Nat.leb n 57 then Some (Z.of_nat n - 48) else None.

Fixpoint skip_space (s : string) : string :=
  match s with
  | String c rest => if isspace c then skip_space rest else s
  | EmptyString => s
  end.

(** The digits loop of [strtol]: the number read so far and what is left. *)
Fixpoint scan_digits (acc : Z) (s : string) : Z * string :=
  match s with
  | String c rest =>
      match digit_of c with
      | Some d => scan_digits (10 * acc + d) rest
      | None => (acc, s)
      end
  | EmptyString => (acc, s)
  end.

Definition starts_with_digit (s : string) : bool :=
  match s with
  | String c _ => match digit_of c with Some _ => true | None => false end
  | EmptyString => false
  end.

(** [strtol(nptr, &endptr, 10)]: white space, an optional sign, digits;
    a value out of range is [LONG_MAX] or [LONG_MIN]; without a digit the
    value is 0 and [endptr] is [nptr].  Returns the value and the string at
    [endptr]. *)
Definition strtol (long_max : Z) (nptr : string) : Z * string :=
  let s := skip_space nptr in
  let '(negative, body) :=
    match s with
    | String "-" rest => (true, rest)
    | String "+" rest => (false, rest)
    | _ => (false, s)
    end in
  if starts_with_digit body then
    let '(magnitude, endptr) := scan_digits 0 body in
    let value := if negative then - magnitude else magnitude in
    (Z.max (- long_max - 1) (Z.min long_max value), endptr)
  else (0, nptr).

(** [buffer[strcspn(buffer, "\n")] = 0]. *)
Fixpoint cut_at_newline (s : string) : string :=
  match s with
  | String c rest =>
      if Ascii.eqb c newline then EmptyString else String c (cut_at_newline rest)
  | EmptyString => EmptyString
  end.

(** [printf("%d", value)]. *)
Definition digit_char (d : Z) : ascii := ascii_of_nat (48 + Z.to_nat d).

Fixpoint decimal_digits (fuel : nat) (n : Z) (acc : string) : string :=
  match fuel with
  | O => acc
  | S fuel' =>
      let acc' := String (digit_char (n mod 10)) acc in
      if n <? 10 then acc' else decimal_digits fuel' (n / 10) acc'
  end.


Definition BRIGHTNESS_PATH := "/sys/class/leds/lcd-backlight/brightness".

Section IntFiles.
Variable m : Medium.

(* main.c:1121-1142 *)
Definition read_int_from_file (path : string) (default_value : Z)
    (d : Disk) : Z * Disk :=
  match files d path with
  | None =>
      let d := io_emit (IoOpen path "r" false) d in
      (default_value,
       io_emit (IoPrint ("File not found: " ++ path ++ nl)) d)
  | Some text =>
      let d := io_emit (IoOpen path "r" true) d in
      match fgets 20 text with
      | Some buffer =>
          let d := io_emit (IoClose path) d in
          let buffer := cut_at_newline buffer in
          let '(value, endptr) := strtol (LONG_MAX m) buffer in
          if (match endptr with EmptyString => true | _ => false end)
             && (value >=? 0)
          then (wrap_int value, d)                     (* (int)value *)
          else (default_value, io_emit (IoClose path) d)
      | None => (default_value, io_emit (IoClose path) d)
      end
  end.



End IntFiles.

Definition lp64 : Medium :=
  {| LONG_MAX := 2 ^ 63 - 1;
     creatable := fun _ => true;
     fprintf_ok := fun _ => true;
     strerror_errno := "Success" |}.

Definition disk_of (l : list (string * string)) : Disk :=
  mkDisk (fun p => option_map snd (find (fun e => String.eqb (fst e) p) l)) [].

(** Classes of characters and strings used to state what is read. *)
Definition no_newline (s : string) : bool :=
  forallb (fun c => negb (Ascii.eqb c newline)) (list_ascii_of_string s).





(** ** The console of terminal.c

    [static int current_fd] and the calls made on it.  What [open] and
    [ioctl] answer is an argument of the function that makes the call. *)

Inductive KdMode := KD_TEXT | KD_GRAPHICS.

Inductive TtyEvent :=
| TtyOpen (fd : Z)                              (* open("/dev/tty0", O_RDWR) *)
| TtyClose (fd : Z)                             (* close(fd) *)
| TtyIoctl (fd : Z) (mode : KdMode) (result : Z) (* ioctl(fd, KDSETMODE, mode) *)
| TtyWarn (text : string).                      (* ul_log(UL_LOG_LEVEL_WARNING, text) *)

Record Tty := mkTty {
  current_fd : Z;
  tty_log : list TtyEvent
}.

(** [static int current_fd = -1;] *)
Definition tty_boot : Tty := mkTty (-1) [].

Definition tty_emit (e : TtyEvent) (t : Tty) : Tty :=
  mkTty (current_fd t) (tty_log t ++ [e]).

(* terminal.c:74-81 *)
Definition close_current_terminal (t : Tty) : Tty :=
  if current_fd t <? 0 then t
  else mkTty (-1) (tty_log t ++ [TtyClose (current_fd t)]).

(* terminal.c:62-72; [opened] is what [open] returns *)
Definition reopen_current_terminal (opened : Z) (t : Tty) : bool * Tty :=
  let t := close_current_terminal t in
  let t := mkTty opened (tty_log t ++ [TtyOpen opened]) in
  if current_fd t <? 0
  then (false, tty_emit (TtyWarn "Could not open /dev/tty0") t)
  else (true, t).

(** The test [current_fd < 0 || ioctl(current_fd, KDSETMODE, mode) != 0]:
    the call is made only when the descriptor is valid. *)
Definition kdsetmode_fails (mode : KdMode) (result : Z) (t : Tty)
  : bool * Tty :=
  if current_fd t <? 0 then (true, t)
  else (negb (result =? 0), tty_emit (TtyIoctl (current_fd t) mode result) t).

(* terminal.c:88-93 *)
Definition ul_terminal_prepare_current_terminal (opened result : Z)
    (t : Tty) : Tty :=
  let t := snd (reopen_current_terminal opened t) in
  let '(failed, t) := kdsetmode_fails KD_GRAPHICS result t in
  if failed
  then tty_emit (TtyWarn "Could not set current terminal to graphics mode") t
  else t.

(* terminal.c:95-100 *)
Definition ul_terminal_reset_current_terminal (result : Z) (t : Tty) : Tty :=
  let '(failed, t) := kdsetmode_fails KD_TEXT result t in
  let t :=
    if failed
    then tty_emit (TtyWarn "Could not reset current terminal to text mode") t
    else t in
  close_current_terminal t.

(** The calls the program makes on the console, with the answers of the
    kernel. *)
Inductive TtyCall :=
| TtyPrepare (opened result : Z)
| TtyReset (result : Z).

Definition tty_call (c : TtyCall) (t : Tty) : Tty :=
  match c with
  | TtyPrepare opened result => ul_terminal_prepare_current_terminal opened result t
  | TtyReset result => ul_terminal_reset_current_terminal result t
  end.

Definition tty_calls (calls : list TtyCall) (t : Tty) : Tty :=
  fold_left (fun t c => tty_call c t) calls t.

(** The descriptors a log leaves open, starting from those in [held]:
    [None] when the log closes, or makes an ioctl on, a descriptor that is
    not open at that point, or opens one while another is still held. *)
Fixpoint tty_ledger (held : list Z) (l : list TtyEvent) : option (list Z) :=
  match l with
  | [] => Some held
  | TtyOpen fd :: l' =>
      match held with
      | [] => tty_ledger (if fd <? 0 then [] else [fd]) l'
      | _ => None
      end
  | TtyClose fd :: l' =>
      if existsb (Z.eqb fd) held
      then tty_ledger (filter (fun x => negb (x =? fd)) held) l'
      else None
  | TtyIoctl fd _ _ :: l' =>
      if existsb (Z.eqb fd) held then tty_ledger held l' else None
  | TtyWarn _ :: l' => tty_ledger held l'
  end.

(** The descriptor the program believes it holds. *)
Definition tty_held (t : Tty) : list Z :=
  if current_fd t <? 0 then [] else [current_fd t].

(** The log accounts for the descriptor in [current_fd], and for no
    other. *)
Definition tty_accounted (t : Tty) : Prop :=
  tty_ledger [] (tty_log t) = Some (tty_held t).

(** ** The SSH button ([toggle_ssh_btn_clicked_cb])

    The two [stat] answers of a click are its arguments: whether
    /tmp/dropbear-enabled exists and whether /scripts/enable-ssh.sh does. *)

Inductive SshEvent :=
| SshSystem (cmd : string)            (* system(cmd); the status is dropped *)
| SshCreateIpLabel (text : string).   (* lv_obj_create + lv_label_create *)

Record SshUi := mkSshUi {
  ip_label_container : option bool;  (* NULL, or the object and whether it
                                        carries LV_OBJ_FLAG_HIDDEN *)
  ssh_btn_label : string;
  ssh_log : list SshEvent
}.

(* main.c:1265-1269, the label create_buttons gives the button *)
Definition ssh_boot (dropbear_enabled : bool) : SshUi :=
  mkSshUi None (if dropbear_enabled then "Disable SSH" else "Enable SSH") [].

(* main.c:1086-1119 *)
Definition toggle_ssh_btn_clicked_cb (dropbear_enabled script_present : bool)
    (u : SshUi) : SshUi :=
  if dropbear_enabled then
    if script_present then
      let l := (ssh_log u ++ [SshSystem "/scripts/enable-ssh.sh 0"])%list in
      let c := match ip_label_container u with
               | Some _ => Some true        (* lv_obj_add_flag(..HIDDEN) *)
               | None => None
               end in
      mkSshUi c "Enable SSH" l
    else u
  else
    if script_present then
      let l := (ssh_log u ++ [SshSystem "/scripts/enable-ssh.sh 1"])%list in
      match ip_label_container u with
      | None =>
          mkSshUi (Some false) "Disable SSH"
            (l ++ [SshCreateIpLabel "IP Address: 192.168.2.15"])
      | Some _ =>                            (* lv_obj_clear_flag(..HIDDEN) *)
          mkSshUi (Some false) "Disable SSH" l
      end
    else u.

(** A series of clicks, each with its two [stat] answers. *)
Definition ssh_clicks (clicks : list (bool * bool)) (u : SshUi) : SshUi :=
  fold_left (fun u c => toggle_ssh_btn_clicked_cb (fst c) (snd c) u) clicks u.

Definition is_ip_label_creation (e : SshEvent) : bool :=
  match e with SshCreateIpLabel _ => true | SshSystem _ => false end.

(** What every state reached from [ssh_boot] satisfies. *)
Definition ssh_consistent (u : SshUi) : Prop :=
  (ssh_btn_label u = "Enable SSH" \/ ssh_btn_label u = "Disable SSH") /\
  (ip_label_container u = Some false -> ssh_btn_label u = "Disable SSH") /\
  List.length (filter is_ip_label_creation (ssh_log u))
  = match ip_label_container u with Some _ => 1%nat | None => 0%nat end.

(** ** More observations of a reset run *)

(** The same world, except for what /proc/sys/vm/drop_caches does. *)
Definition with_cache (w : World) (c : CacheCtl) : World :=
  {| proc_cmdline := proc_cmdline w;
     malloc_ok := malloc_ok w;
     dev_nodes := dev_nodes w;
     activation := activation w;
     ext4_on := ext4_on w;
     sh_status := sh_status w;
     cache_ctl := c;
     luks_probe := luks_probe w;
     unlock_helper := unlock_helper w |}.

(** The same world with another /proc/cmdline. *)
Definition with_cmdline (w : World) (cmdline : option string) : World :=
  {| proc_cmdline := cmdline;
     malloc_ok := malloc_ok w;
     dev_nodes := dev_nodes w;
     activation := activation w;
     ext4_on := ext4_on w;
     sh_status := sh_status w;
     cache_ctl := cache_ctl w;
     luks_probe := luks_probe w;
     unlock_helper := unlock_helper w |}.

Definition is_cache_drop (e : Event) : bool :=
  match e with
  | ECacheDrop => true
  | _ => false
  end.

(** The log without the writes to drop_caches. *)
Definition besides_cache_drops (tr : list Event) : list Event :=
  filter (fun e => negb (is_cache_drop e)) tr.

(** Calls on the fallback mount point and on its boot directory. *)
Definition on_rootfs_mnt (e : Event) : bool :=
  match e with
  | EMkdir path => String.eqb path rootfs_mnt
  | EMount _ mnt _ => String.eqb mnt rootfs_mnt
  | EUmount mnt => String.eqb mnt rootfs_mnt
  | EOpendir _ _ => true
  | EClosedir _ => true
  | _ => false
  end.

(** A command that reads its image from the system slot. *)
Definition system_slot_cmd (sfx cmd : string) : Prop :=
  exists i,
    cmd = snprintf 1024 (dd_system (image_name i) (image_part i) sfx).

(** A command that reads its image from the boot directory of the rootfs
    volume of [w]: the file is the one the scan of that directory found. *)
Definition fallback_cmd (w : World) (sfx cmd : string) : Prop :=
  exists i vr entries,
    ext4_on w rootfs_dev = Some vr /\ vol_boot vr = Some entries /\
    scan_boot_dir (image_name i) entries <> EmptyString /\
    cmd = rootfs_cmd (scan_boot_dir (image_name i) entries) (image_part i) sfx.

(** The box of the third and later wrong passwords. *)
Definition is_lockout_box (e : Event) : bool :=
  match e with
  | EMsgbox text [] => String.eqb text "Maximum password attempt reached."
  | _ => false
  end.

Definition is_timer (e : Event) : bool :=
  match e with
  | ETimer _ _ => true
  | _ => false
  end.

(** The shell commands of a log, in order, without their exit status. *)
Definition commands (tr : list Event) : list string :=
  flat_map (fun e => match e with ESystem cmd _ => [cmd] | _ => [] end) tr.

(** The mount and unmount calls of a log, in order. *)
Definition mount_calls (tr : list Event) : list Event :=
  filter (fun e => negb (no_mount e)) tr.

(** A string of [n] characters [c]. *)
Fixpoint padding (n : nat) (c : ascii) : string :=
  match n with
  | O => EmptyString
  | S n' => String c (padding n' c)
  end.

(** ** Facts about the C string functions *)

Lemma strncpy_length n s : (String.length (strncpy n s) <= n)%nat.
Proof.
  revert s; induction n as [|n IH]; intros [|c s]; simpl; try lia.
  specialize (IH s); lia.
Qed.

Lemma strncpy_short n s :
  (String.length s <= n)%nat -> strncpy n s = s.
Proof.
  revert s; induction n as [|n IH]; intros [|c s]; simpl; intros H;
    try reflexivity; try lia.
  f_equal; apply IH; lia.
Qed.

Lemma strncpy_app n a b :
  String.length a = n -> strncpy n (a ++ b) = a.
Proof.
  revert a; induction n as [|n IH]; intros [|c a]; simpl; intros H;
    try discriminate.
  - now destruct b.
  - f_equal; apply IH; congruence.
Qed.

Lemma advance_app a b : advance (String.length a) (a ++ b) = b.
Proof. induction a as [|c a IH]; simpl; auto. Qed.

Lemma prefix_app a b : String.prefix a (a ++ b) = true.
Proof.
  induction a as [|c a IH]; simpl.
  - now destruct b.
  - destruct (ascii_dec c c); [exact IH | congruence].
Qed.

Lemma prefix_split a s :
  String.prefix a s = true -> exists b, s = a ++ b.
Proof.
  revert s; induction a as [|c a IH]; intros s H.
  - now exists s.
  - destruct s as [|d s]; simpl in H; [discriminate|].
    destruct (ascii_dec c d) as [->|]; [|discriminate].
    destruct (IH _ H) as [b ->]. now exists b.
Qed.

Lemma strstr_unfold hay needle :
  strstr hay needle =
  if String.prefix needle hay then Some hay
  else match hay with
       | EmptyString => None
       | String _ rest => strstr rest needle
       end.
Proof. destruct hay; reflexivity. Qed.

(** What [strstr] finds is an occurrence of the needle. *)
Lemma strstr_Some hay needle tok :
  strstr hay needle = Some tok ->
  exists before after,
    hay = before ++ tok /\ tok = needle ++ after.
Proof.
  induction hay as [|c hay IH]; rewrite strstr_unfold;
    match goal with |- context [String.prefix ?a ?b] =>
      destruct (String.prefix a b) eqn:P end; try discriminate.
  - intros [= <-]. destruct (prefix_split _ _ P) as [b E].
    exists EmptyString, b. now split.
  - intros [= <-]. destruct (prefix_split _ _ P) as [b E].
    exists EmptyString, b. now split.
  - intros H. destruct (IH H) as (before & after & -> & E).
    exists (String c before), after. now split.
Qed.

(** When [strstr] finds nothing there is no occurrence. *)
Lemma strstr_None hay needle :
  strstr hay needle = None ->
  forall before after, hay <> before ++ needle ++ after.
Proof.
  induction hay as [|c hay IH]; rewrite strstr_unfold;
    match goal with |- context [String.prefix ?a ?b] =>
      destruct (String.prefix a b) eqn:P end; try discriminate;
    intros H before after E; destruct before as [|d before]; simpl in E;
    try discriminate.
  - rewrite E, prefix_app in P; discriminate.
  - rewrite E, prefix_app in P; discriminate.
  - injection E as _ E. exact (IH H _ _ E).
Qed.


(** ** Symbolic execution *)

(** The monad laws and the calls that only log, as rewrite rules that run
    a block from a known state.  Strings are left alone. *)
Lemma bind_assoc {R A B C} (m : M R A) (k : A -> M R B) (k' : B -> M R C) s :
  bind (bind m k) k' s = bind m (fun a => bind (k a) k') s.
Proof. unfold bind. now destruct (m s) as [[r|a] s']. Qed.

Lemma bind_ret {R A B} (a : A) (k : A -> M R B) s : bind (ret a) k s = k a s.
Proof. reflexivity. Qed.

Lemma bind_return {R A B} (r : R) (k : A -> M R B) s :
  bind (return_ r) k s = (inl r, s).
Proof. reflexivity. Qed.

Lemma bind_stat {R B} path (k : Z -> M R B) s :
  bind (stat path) k s = k (if path_exists path s then 0 else -1) s.
Proof. reflexivity. Qed.

Lemma bind_log {R B} e (k : unit -> M R B) p tab t n :
  bind (log e) k (mkSys p tab t n) = k tt (mkSys p tab (t ++ [e]) n).
Proof. reflexivity. Qed.

Lemma bind_printf {R B} text (k : unit -> M R B) p tab t n :
  bind (printf text) k (mkSys p tab t n)
  = k tt (mkSys p tab (t ++ [EPrint text]) n).
Proof. reflexivity. Qed.

Lemma bind_mkdir {R B} path (k : unit -> M R B) p tab t n :
  bind (mkdir path) k (mkSys p tab t n)
  = k tt (mkSys p tab (t ++ [EMkdir path]) n).
Proof. reflexivity. Qed.

Lemma bind_closedir {R B} path (k : unit -> M R B) p tab t n :
  bind (closedir path) k (mkSys p tab t n)
  = k tt (mkSys p tab (t ++ [EClosedir path]) n).
Proof. reflexivity. Qed.

Lemma ret_run {R A} (a : A) s : @ret R A a s = (inr a, s).
Proof. reflexivity. Qed.

Lemma return_run {R A} (r : R) s : @return_ R A r s = (inl r, s).
Proof. reflexivity. Qed.

Lemma printf_run {R} text p tab t n :
  @printf R text (mkSys p tab t n)
  = (inr tt, mkSys p tab (t ++ [EPrint text]) n).
Proof. reflexivity. Qed.

Lemma log_run {R} e p tab t n :
  @log R e (mkSys p tab t n) = (inr tt, mkSys p tab (t ++ [e]) n).
Proof. reflexivity. Qed.

Create Rewrite HintDb mdb.
#[global] Hint Rewrite @bind_assoc @bind_ret @bind_return @bind_stat @bind_log
  @bind_printf @bind_mkdir @bind_closedir @ret_run @return_run
  @printf_run @log_run : mdb.

Ltac norm_trace := repeat (rewrite <- app_assoc || (progress cbn [app])).

Ltac mrun :=
  repeat (progress (autorewrite with mdb;
                    cbn [when negb andb orb Z.eqb]));
  norm_trace.

(** Run the call at the head of the block with its equation. *)
Tactic Notation "mcall" uconstr(lem) :=
  unfold bind at 1; rewrite lem; mrun.

Lemma stat_zero (b : bool) : ((if b then 0 else -1) =? 0) = b.
Proof. now destruct b. Qed.

Lemma path_exists_ramdisk path p t n :
  path_exists path (mkSys p [] t n) = mem path p.
Proof. reflexivity. Qed.

Lemma path_exists_system f p v t n :
  path_exists ("/system_mnt/" ++ f) (mkSys p [(system_mnt, v)] t n)
  = mem f (vol_files v).
Proof.
  unfold path_exists; cbn [mtab resolve].
  change (system_mnt ++ "/") with "/system_mnt/".
  rewrite prefix_app.
  change (strlen system_mnt + 1)%nat with (String.length "/system_mnt/").
  now rewrite advance_app.
Qed.

Lemma path_exists_rootfs_dev p v t n :
  path_exists rootfs_dev (mkSys p [(system_mnt, v)] t n) = mem rootfs_dev p.
Proof. reflexivity. Qed.

Lemma umount_newest {R} mnt v p tab t n :
  @umount R mnt (mkSys p ((mnt, v) :: tab) t n)
  = (inr tt, mkSys p tab (t ++ [EUmount mnt]) n).
Proof. unfold umount. cbn. now rewrite String.eqb_refl. Qed.

Lemma opendir_rootfs_boot {R} p vr tab t n :
  @opendir R "/rootfs_mnt/boot" (mkSys p ((rootfs_mnt, vr) :: tab) t n)
  = (inr (vol_boot vr),
     mkSys p ((rootfs_mnt, vr) :: tab)
       (t ++ [EOpendir "/rootfs_mnt/boot"
                match vol_boot vr with Some _ => true | None => false end])
       n).
Proof. reflexivity. Qed.

Lemma snprintf_dmsetup : snprintf 1024 dmsetup_cmd = dmsetup_cmd.
Proof. reflexivity. Qed.

Lemma dd_system_not_dmsetup img part sfx :
  String.eqb (snprintf 1024 (dd_system img part sfx)) dmsetup_cmd = false.
Proof. reflexivity. Qed.

Lemma dd_rootfs_not_dmsetup path part sfx :
  String.eqb (snprintf 1024 (dd_rootfs path part sfx)) dmsetup_cmd = false.
Proof. reflexivity. Qed.

Lemma tar_not_dmsetup archive :
  String.eqb (snprintf 1024 (tar_cmd archive)) dmsetup_cmd = false.
Proof. reflexivity. Qed.

(** ** One equation per block of [factory_reset] *)

Section Blocks.

Variable w : World.

Lemma system_plain {R} cmd p tab t n :
  String.eqb cmd dmsetup_cmd = false ->
  @system w R cmd (mkSys p tab t n) =
  (inr (sh_status w cmd), mkSys p tab (t ++ [ESystem cmd (sh_status w cmd)]) n).
Proof. intros H. unfold system. rewrite H. reflexivity. Qed.

Lemma system_dmsetup {R} p tab t n :
  @system w R dmsetup_cmd (mkSys p tab t n) =
  (inr (sh_status w dmsetup_cmd),
   mkSys (p ++ activation w) tab
     (t ++ [ESystem dmsetup_cmd (sh_status w dmsetup_cmd)]) n).
Proof. unfold system. rewrite String.eqb_refl. reflexivity. Qed.

Lemma mount_ok {R} dev mnt v p tab t n :
  ext4_on w dev = Some v ->
  @mount w R dev mnt (mkSys p tab t n)
  = (inr 0, mkSys p ((mnt, v) :: tab) (t ++ [EMount dev mnt 0]) n).
Proof. intros H. unfold mount. now rewrite H. Qed.

Lemma mount_failed {R} dev mnt p tab t n :
  ext4_on w dev = None ->
  @mount w R dev mnt (mkSys p tab t n)
  = (inr (-1), mkSys p tab (t ++ [EMount dev mnt (-1)]) n).
Proof. intros H. unfold mount. now rewrite H. Qed.

Lemma drop_caches_call {R} p tab t n :
  @call Z R (drop_caches w) (mkSys p tab t n)
  = (inr (cache_result w), mkSys p tab (t ++ cache_events w) n).
Proof.
  unfold call, run, drop_caches, cache_result, cache_events.
  destruct (cache_ctl w); cbn; rewrite ?app_nil_r; reflexivity.
Qed.

Lemma activate_dynparts_run t n :
  activate_dynparts w (mkSys (dev_nodes w) [] t n)
  = (inr tt,
     mkSys (paths_after_activation w) [] (t ++ activation_events w) n).
Proof.
  unfold activate_dynparts, activation_events, paths_after_activation,
    needs_activation.
  mrun. rewrite path_exists_ramdisk, stat_zero.
  destruct (mem super_dev (dev_nodes w)); mrun; [|now rewrite app_nil_r].
  rewrite path_exists_ramdisk, stat_zero.
  destruct (mem system_a_dev (dev_nodes w)); mrun; [now rewrite app_nil_r|].
  rewrite path_exists_ramdisk, stat_zero.
  destruct (mem system_b_dev (dev_nodes w)); mrun; [now rewrite app_nil_r|].
  rewrite snprintf_dmsetup. now mcall system_dmsetup.
Qed.

Lemma mount_system_slot_run p t n :
  mount_system_slot w (mkSys p [] t n)
  = match slot_choice p with
    | None =>
        (inl (-1),
         mkSys p []
           (t ++ [EMkdir system_mnt;
                  EPrint ("Failed to mount dynpart-system, block device doesn't not exist" ++ nl)])
           n)
    | Some (dev, name) =>
        match ext4_on w dev with
        | Some v =>
            (inr tt,
             mkSys p [(system_mnt, v)]
               (t ++ [EMkdir system_mnt; EMount dev system_mnt 0]) n)
        | None =>
            (inl (-1),
             mkSys p []
               (t ++ [EMkdir system_mnt; EMount dev system_mnt (-1);
                      EPrint ("Failed to mount " ++ name ++ nl)]) n)
        end
    end.
Proof.
  unfold mount_system_slot, slot_choice. mrun.
  rewrite path_exists_ramdisk, stat_zero.
  destruct (mem system_a_dev p).
  - destruct (ext4_on w system_a_dev) eqn:E.
    + now mcall (mount_ok _ _ _ _ _ _ _ E).
    + now mcall (mount_failed _ _ _ _ _ _ E).
  - mrun. rewrite path_exists_ramdisk, stat_zero.
    destruct (mem system_b_dev p).
    + destruct (ext4_on w system_b_dev) eqn:E.
      * now mcall (mount_ok _ _ _ _ _ _ _ E).
      * now mcall (mount_failed _ _ _ _ _ _ E).
    + now mrun.
Qed.

Lemma select_userdata_run p v t n :
  select_userdata (mkSys p [(system_mnt, v)] t n)
  = match userdata_archive v with
    | Some archive =>
        (inr (snprintf 1024 (tar_cmd archive)),
         mkSys p [(system_mnt, v)] t n)
    | None =>
        (inl (-1),
         mkSys p []
           (t ++ [EPrint ("Failed to find userdata archive" ++ nl);
                  EUmount system_mnt]) n)
    end.
Proof.
  unfold select_userdata, userdata_archive. mrun.
  rewrite (path_exists_system "userdata.img.tar.gz"), stat_zero.
  destruct (mem "userdata.img.tar.gz" (vol_files v)); [now mrun|].
  mrun. rewrite (path_exists_system "userdata-raw.img.tar.gz"), stat_zero.
  destruct (mem "userdata-raw.img.tar.gz" (vol_files v)); [now mrun|].
  mrun. now mcall umount_newest.
Qed.

Lemma write_userdata_run archive p v t n :
  let cmd := snprintf 1024 (tar_cmd archive) in
  write_userdata w cmd (mkSys p [(system_mnt, v)] t n)
  = if sh_status w cmd =? 0
    then (inr tt,
          mkSys p [(system_mnt, v)] (t ++ [ESystem cmd (sh_status w cmd)]) n)
    else (inl (-1),
          mkSys p []
            (t ++ [ESystem cmd (sh_status w cmd);
                   EPrint ("Failed to extract and write userdata" ++ nl);
                   EUmount system_mnt]) n).
Proof.
  intros cmd. unfold write_userdata. unfold bind at 1.
  rewrite system_plain by apply tar_not_dmsetup.
  destruct (sh_status w cmd =? 0); mrun; [reflexivity|].
  now mcall umount_newest.
Qed.

Lemma flash_from_system_run img part sfx p v t n :
  flash_from_system w img part sfx (mkSys p [(system_mnt, v)] t n)
  = (inr tt,
     mkSys p [(system_mnt, v)] (t ++ flash_system_events w img part sfx v) n).
Proof.
  unfold flash_from_system, flash_system_events. mrun.
  rewrite path_exists_system, stat_zero.
  destruct (mem img (vol_files v)); [|now mrun].
  unfold bind at 1. rewrite system_plain by apply dd_system_not_dmsetup.
  destruct (sh_status w _ =? 0); now mrun.
Qed.

Lemma flash_from_rootfs_run img_file img part sfx p tab t n :
  flash_from_rootfs w img_file img part sfx (mkSys p tab t n)
  = (inr tt,
     mkSys p tab (t ++ flash_rootfs_events w img_file img part sfx) n).
Proof.
  unfold flash_from_rootfs, flash_rootfs_events, rootfs_cmd.
  destruct img_file as [|c img_file]; cbn [if_set]; [now mrun|].
  unfold bind at 1. rewrite system_plain by apply dd_rootfs_not_dmsetup.
  destruct (sh_status w _ =? 0); now mrun.
Qed.

Lemma flash_from_fallback_run sfx p v t n :
  flash_from_fallback w sfx (mkSys p [(system_mnt, v)] t n)
  = (if fallback_fails w p v then inl (-1) else inr tt,
     mkSys p [(system_mnt, v)] (t ++ fallback_events w sfx p v) n).
Proof.
  unfold flash_from_fallback, fallback_fails, fallback_entered,
    fallback_events, image_missing.
  mrun.
  rewrite (path_exists_system "boot.img"), stat_zero.
  destruct (mem "boot.img" (vol_files v)); mrun;
    [rewrite (path_exists_system "dtbo.img"), stat_zero;
     destruct (mem "dtbo.img" (vol_files v)); mrun;
     [now rewrite app_nil_r|]|].
  all: rewrite path_exists_rootfs_dev, stat_zero.
  all: destruct (mem rootfs_dev p); mrun; [|reflexivity].
  all: destruct (ext4_on w rootfs_dev) as [vr|] eqn:E;
    [mcall (mount_ok _ _ _ _ _ _ _ E) | now mcall (mount_failed _ _ _ _ _ _ E)].
  all: mcall opendir_rootfs_boot.
  all: destruct (vol_boot vr) as [entries|]; mrun;
    [|now mcall umount_newest].
  all: mcall flash_from_rootfs_run.
  all: mcall flash_from_rootfs_run.
  all: rewrite umount_newest.
  all: now norm_trace.
Qed.

(** [factory_reset] computes [reset_summary]. *)
Lemma factory_reset_run t n :
  run (factory_reset w) (mkSys (dev_nodes w) [] t n)
  = let '(r, tab, es) := reset_summary w in
    (r, mkSys (paths_after_activation w) tab (t ++ es) n).
Proof.
  unfold run, factory_reset, reset_summary.
  mcall drop_caches_call.
  mcall activate_dynparts_run.
  mcall mount_system_slot_run.
  destruct (slot_choice (paths_after_activation w)) as [[dev name]|];
    [|now norm_trace].
  destruct (ext4_on w dev) as [v|]; [|now norm_trace].
  mcall select_userdata_run.
  destruct (userdata_archive v) as [archive|]; [|now norm_trace].
  mcall write_userdata_run.
  destruct (sh_status w _ =? 0); [|now norm_trace].
  mcall flash_from_system_run.
  mcall flash_from_system_run.
  mcall flash_from_fallback_run.
  destruct (fallback_fails w (paths_after_activation w) v); [now norm_trace|].
  mcall umount_newest.
  mcall drop_caches_call.
  now norm_trace.
Qed.

End Blocks.

(** ** The run as a whole *)

Lemma reset_run_summary w :
  reset_run w
  = let '(r, tab, es) := reset_summary w in
    (r, mkSys (paths_after_activation w) tab es 0).
Proof. unfold reset_run, boot_state. now rewrite factory_reset_run. Qed.

Lemma reset_result_summary w : reset_result w = fst (fst (reset_summary w)).
Proof.
  unfold reset_result. rewrite reset_run_summary.
  now destruct (reset_summary w) as [[r tab] es].
Qed.

Lemma reset_trace_summary w : reset_trace w = snd (reset_summary w).
Proof.
  unfold reset_trace. rewrite reset_run_summary.
  now destruct (reset_summary w) as [[r tab] es].
Qed.

Lemma reset_paths w : paths (snd (reset_run w)) = paths_after_activation w.
Proof.
  rewrite reset_run_summary.
  now destruct (reset_summary w) as [[r tab] es].
Qed.

(** *** Which events each part of the log can hold *)

Lemma in_cache_events w e : In e (cache_events w) -> e = ECacheDrop.
Proof.
  unfold cache_events. destruct (cache_ctl w); cbn [In]; intuition.
Qed.

Lemma in_activation_events w e :
  In e (activation_events w) ->
  needs_activation (dev_nodes w) = true /\
  e = ESystem dmsetup_cmd (sh_status w dmsetup_cmd).
Proof.
  unfold activation_events. destruct (needs_activation (dev_nodes w));
    cbn [In]; intuition.
Qed.

Lemma in_flash_system_events w img part sfx v e :
  In e (flash_system_events w img part sfx v) ->
  (mem img (vol_files v) = true /\
   e = ESystem (snprintf 1024 (dd_system img part sfx))
         (sh_status w (snprintf 1024 (dd_system img part sfx))))
  \/ exists text, e = EPrint text.
Proof.
  unfold flash_system_events. destruct (mem img (vol_files v));
    cbn [In]; intros H; decompose [or] H; try tauto; eauto.
Qed.

Lemma in_flash_rootfs_events w img_file img part sfx e :
  In e (flash_rootfs_events w img_file img part sfx) ->
  (img_file <> EmptyString /\
   e = ESystem (rootfs_cmd img_file part sfx)
         (sh_status w (rootfs_cmd img_file part sfx)))
  \/ exists text, e = EPrint text.
Proof.
  unfold flash_rootfs_events. destruct img_file;
    cbn [In if_set]; intros H; decompose [or] H; try tauto; eauto.
  left. split; [discriminate|auto].
Qed.

(** The events of the fallback, by what they say about the world. *)
Lemma in_fallback_events w sfx p v e :
  In e (fallback_events w sfx p v) ->
  (exists text, e = EPrint text) \/
  fallback_entered p v = true /\
  (e = EMkdir rootfs_mnt \/
   e = EMount rootfs_dev rootfs_mnt (-1) /\ fallback_fails w p v = true \/
   e = EOpendir "/rootfs_mnt/boot" false /\ fallback_fails w p v = true \/
   e = EUmount rootfs_mnt \/
   e = EMount rootfs_dev rootfs_mnt 0 \/
   fallback_fails w p v = false /\
   (e = EOpendir "/rootfs_mnt/boot" true \/
    e = EClosedir "/rootfs_mnt/boot" \/
    exists vr entries i,
      ext4_on w rootfs_dev = Some vr /\ vol_boot vr = Some entries /\
      scan_boot_dir (image_name i) entries <> EmptyString /\
      e = ESystem
            (rootfs_cmd (scan_boot_dir (image_name i) entries)
               (image_part i) sfx)
            (sh_status w
               (rootfs_cmd (scan_boot_dir (image_name i) entries)
                  (image_part i) sfx)))).
Proof.
  unfold fallback_events, fallback_fails, fallback_entered.
  destruct (image_missing v); [|intros []].
  destruct (mem rootfs_dev p); [|cbn [In]; intros [<-|[]]; eauto].
  cbn [andb].
  destruct (ext4_on w rootfs_dev) as [vr|] eqn:Ev.
  2: { cbn [In]. intros H; decompose [or] H; subst; try tauto; eauto. }
  destruct (vol_boot vr) as [entries|] eqn:Eb.
  2: { cbn [In]. intros H; decompose [or] H; subst; try tauto; eauto 7. }
  cbn [In app]. intros [<-|[<-|[<-|[<-|H]]]]; try tauto.
  rewrite !in_app_iff in H. cbn [In] in H.
  destruct H as [H|[H|[<-|[]]]]; try tauto.
  - apply in_flash_rootfs_events in H as [(Hne & ->)|?]; [|tauto].
    right. split; [reflexivity|]. do 5 right. split; [reflexivity|].
    do 2 right. exists vr, entries, Boot. repeat split; auto.
  - apply in_flash_rootfs_events in H as [(Hne & ->)|?]; [|tauto].
    right. split; [reflexivity|]. do 5 right. split; [reflexivity|].
    do 2 right. exists vr, entries, Dtbo. repeat split; auto.
Qed.

(** Split a membership in a log into its parts. *)
Ltac in_trace :=
  repeat match goal with
  | H : In _ (_ ++ _) |- _ => apply in_app_or in H
  | H : In _ (_ :: _) |- _ => cbn [In] in H
  | H : In _ [] |- _ => destruct H
  | H : _ \/ _ |- _ => destruct H as [H|H]
  | H : False |- _ => destruct H
  | H : In _ (cache_events _) |- _ => apply in_cache_events in H
  | H : In _ (activation_events _) |- _ =>
      apply in_activation_events in H; destruct H as [? H]
  | H : In _ (flash_system_events _ _ _ _ _) |- _ =>
      apply in_flash_system_events in H; destruct H as [[? H]|[? H]]
  end.

(** Open [reset_summary] along the branches of the run. *)
Ltac reset_scrutinee x :=
  lazymatch x with
  | slot_choice _ => destruct x as [[?dev ?name]|] eqn:?Slot
  | ext4_on _ _ => destruct x as [?v|] eqn:?Vol
  | userdata_archive _ => destruct x as [?archive|] eqn:?Archive
  | (sh_status _ _ =? 0) => destruct x eqn:?Tar
  | fallback_fails _ _ _ => destruct x eqn:?Fails
  end.

Ltac reset_cases w :=
  unfold reset_result, reset_trace in *; rewrite reset_run_summary in *;
  unfold reset_summary in *;
  repeat match goal with
         | |- context [match ?x with _ => _ end] => reset_scrutinee x
         | H : context [match ?x with _ => _ end] |- _ => reset_scrutinee x
         end;
  cbn [fst snd trace mtab paths] in *.

(** ** C4: the slot resolver *)

Lemma append_length a b :
  String.length (a ++ b) = (String.length a + String.length b)%nat.
Proof. induction a as [|c a IH]; simpl; congruence. Qed.

Lemma strstr_first line key before rest :
  line = before ++ key ++ rest ->
  first_at key line before ->
  strstr line key = Some (key ++ rest).
Proof.
  revert line; induction before as [|c before IH]; intros line -> First.
  - rewrite strstr_unfold. cbn [String.append]. now rewrite prefix_app.
  - rewrite strstr_unfold.
    destruct (String.prefix key (String c before ++ key ++ rest)) eqn:P.
    + destruct (prefix_split _ _ P) as [a E].
      specialize (First EmptyString a E). simpl in First. lia.
    + cbn [String.append]. apply IH; [reflexivity|].
      intros b a E.
      specialize (First (String c b) a). simpl in First.
      rewrite E in First. specialize (First eq_refl). lia.
Qed.

Lemma get_slot_suffix_length w s :
  get_slot_suffix w = Some s -> (String.length s <= 2)%nat.
Proof.
  unfold get_slot_suffix.
  destruct (proc_cmdline w) as [c|]; [|discriminate].
  destruct (fgets 1024 c) as [buffer|]; [|discriminate].
  destruct (strstr buffer slot_key) as [token|]; [|discriminate].
  destruct (malloc_ok w); [|discriminate].
  intros H.
  assert (E : s = strncpy 2 (advance (strlen slot_key) token)) by congruence.
  rewrite E. apply strncpy_length.
Qed.

(** C4 (amended): the resolver never fails and never yields more than two
    characters; it yields the empty string when the command line cannot be
    read, when the key is absent from the line read, or when the result
    buffer cannot be allocated; otherwise it yields the characters that
    follow the first occurrence of the key, cut after two: the
    two-character token when two characters follow, and what is left of the
    line when fewer do.  No check of the token is made. *)
Theorem slot_suffix_resolution (w : World) :
  let suffix := slot_suffix_or_default w in
  (String.length suffix <= 2)%nat /\
  (cmdline_line w = None -> suffix = EmptyString) /\
  (malloc_ok w = false -> suffix = EmptyString) /\
  (forall line, cmdline_line w = Some line ->
     (forall before rest, line <> before ++ slot_key ++ rest) ->
     suffix = EmptyString) /\
  (forall line before rest,
     cmdline_line w = Some line ->
     line = before ++ slot_key ++ rest ->
     first_at slot_key line before ->
     malloc_ok w = true ->
     suffix = strncpy 2 rest /\
     (forall token after,
        rest = token ++ after -> String.length token = 2%nat ->
        suffix = token)).
Proof.
  unfold slot_suffix_or_default, cmdline_line.
  split; [|split; [|split; [|split]]].
  - destruct (get_slot_suffix w) as [s|] eqn:E; [|simpl; lia].
    exact (get_slot_suffix_length _ _ E).
  - unfold get_slot_suffix.
    destruct (proc_cmdline w) as [c|]; [|reflexivity].
    now intros ->.
  - unfold get_slot_suffix. intros ->.
    destruct (proc_cmdline w) as [c|]; [|reflexivity].
    destruct (fgets 1024 c) as [buffer|]; [|reflexivity].
    now destruct (strstr buffer slot_key).
  - intros line Line Absent. unfold get_slot_suffix.
    destruct (proc_cmdline w) as [c|]; [|reflexivity].
    rewrite Line.
    destruct (strstr line slot_key) as [found|] eqn:F; [|reflexivity].
    destruct (strstr_Some _ _ _ F) as (before & rest & E1 & E2).
    subst found. now destruct (Absent before rest).
  - intros line before rest Line E First Malloc. unfold get_slot_suffix.
    destruct (proc_cmdline w) as [c|]; [|discriminate].
    rewrite Line, (strstr_first _ _ _ _ E First), Malloc.
    unfold strlen. rewrite advance_app. split; [reflexivity|].
    intros token after -> Len. now apply strncpy_app.
Qed.

(** C4 as stated fails: with the key at the end of the line the resolver
    yields the newline that follows it, one character that is neither a
    two-character token nor the empty string. *)
Lemma slot_suffix_single_character :
  let suffix :=
    slot_suffix_or_default
      (sample_world (Some ("console=tty0 androidboot.slot_suffix=" ++ nl))) in
  suffix = nl /\ suffix <> EmptyString /\ String.length suffix <> 2%nat.
Proof. cbv. repeat split; discriminate. Qed.

Example slot_suffix_b :
  slot_suffix_or_default
    (sample_world (Some ("console=tty0 androidboot.slot_suffix=_b quiet" ++ nl)))
  = "_b".
Proof. reflexivity. Qed.

(** ** C1: scratch mounts *)

Lemma ledger_app open a b :
  ledger open (a ++ b)
  = match ledger open a with
    | Some open' => ledger open' b
    | None => None
    end.
Proof.
  revert open; induction a as [|e a IH]; intros open; [reflexivity|].
  destruct e; cbn [app ledger]; auto.
  destruct (mem mnt open); auto.
Qed.

Lemma ledger_no_mount open es :
  forallb no_mount es = true -> ledger open es = Some open.
Proof.
  induction es as [|e es IH]; [reflexivity|].
  cbn [forallb]. intros H. apply andb_true_iff in H as [He Hes].
  destruct e; try discriminate; cbn [ledger]; auto.
Qed.

Lemma ledger_open_close open mnt tr :
  ledger (mnt :: open) (EUmount mnt :: tr) = ledger open tr.
Proof.
  cbn [ledger mem existsb remove_first]. now rewrite String.eqb_refl.
Qed.

Lemma occurrences_remove_first mnt x open :
  mem x open = true ->
  (occurrences mnt (remove_first x open) + (if String.eqb x mnt then 1 else 0)
   = occurrences mnt open)%nat.
Proof.
  unfold occurrences, mem.
  induction open as [|y open IH]; [discriminate|].
  cbn [existsb remove_first filter].
  destruct (String.eqb_spec x y) as [<-|N]; cbn [orb].
  - intros _. rewrite String.eqb_refl.
    rewrite (String.eqb_sym mnt x).
    destruct (String.eqb x mnt); cbn [List.length]; lia.
  - intros H. specialize (IH H).
    destruct (String.eqb_spec y x) as [E|_]; [congruence|].
    cbn [filter]. destruct (String.eqb mnt y); cbn [List.length]; lia.
Qed.

(** What the ledger means in numbers: per mount point, the mounts open at
    the start plus the successful mounts of the log are the unmounts of
    the log plus the mounts open at the end. *)
Lemma ledger_counts tr : forall open open' mnt,
  ledger open tr = Some open' ->
  (occurrences mnt open + mounts_on mnt tr
   = umounts_on mnt tr + occurrences mnt open')%nat.
Proof.
  induction tr as [|e tr IH]; intros open open' mnt.
  - cbn. intros [= ->]. lia.
  - destruct e; cbn [ledger mounts_on umounts_on filter];
      try (intros H; exact (IH _ _ mnt H)).
    + intros H. specialize (IH _ _ mnt H). revert IH.
      unfold mounts_on, umounts_on. cbn [filter is_mount_on is_umount_on].
      destruct (result =? 0); cbn [andb]; [|now rewrite andb_false_r].
      unfold occurrences at 1. cbn [filter]. rewrite andb_true_r.
      rewrite (String.eqb_sym mnt mnt0).
      destruct (String.eqb mnt0 mnt); cbn [List.length]; unfold occurrences;
        lia.
    + destruct (mem mnt0 open) eqn:Mem; [|discriminate].
      intros H. specialize (IH _ _ mnt H). revert IH.
      pose proof (occurrences_remove_first mnt _ _ Mem) as Rm. revert Rm.
      unfold mounts_on, umounts_on. cbn [filter is_mount_on is_umount_on].
      destruct (String.eqb mnt0 mnt); cbn [List.length]; lia.
Qed.

Lemma cache_events_no_mount w : forallb no_mount (cache_events w) = true.
Proof. unfold cache_events. now destruct (cache_ctl w). Qed.

Lemma activation_events_no_mount w :
  forallb no_mount (activation_events w) = true.
Proof. unfold activation_events. now destruct (needs_activation _). Qed.

Lemma flash_system_events_no_mount w img part sfx v :
  forallb no_mount (flash_system_events w img part sfx v) = true.
Proof. unfold flash_system_events. now destruct (mem img _). Qed.

Lemma flash_rootfs_events_no_mount w img_file img part sfx :
  forallb no_mount (flash_rootfs_events w img_file img part sfx) = true.
Proof. unfold flash_rootfs_events. now destruct img_file. Qed.

(** A fallback that does not fail leaves the ledger as it found it. *)
Lemma ledger_fallback w sfx p v open :
  fallback_fails w p v = false ->
  ledger open (fallback_events w sfx p v) = Some open.
Proof.
  unfold fallback_fails, fallback_entered, fallback_events.
  destruct (image_missing v); [|reflexivity].
  destruct (mem rootfs_dev p); [|reflexivity].
  destruct (ext4_on w rootfs_dev) as [vr|]; [|discriminate].
  destruct (vol_boot vr) as [entries|]; [|discriminate].
  intros _. cbn [ledger Z.eqb app].
  repeat (rewrite ledger_app, ledger_no_mount
            by apply flash_rootfs_events_no_mount).
  apply ledger_open_close.
Qed.

(** A fallback that fails logs the failed mount or the failed opendir. *)
Lemma fallback_failure_logged w sfx p v :
  fallback_fails w p v = true ->
  In (EMount rootfs_dev rootfs_mnt (-1)) (fallback_events w sfx p v) \/
  In (EOpendir "/rootfs_mnt/boot" false) (fallback_events w sfx p v).
Proof.
  unfold fallback_fails, fallback_entered, fallback_events.
  destruct (image_missing v); [|discriminate].
  destruct (mem rootfs_dev p); [|discriminate].
  destruct (ext4_on w rootfs_dev) as [vr|]; [|left; cbn; auto].
  destruct (vol_boot vr) as [entries|]; [discriminate|].
  right; cbn; auto.
Qed.

Lemma signal_events_run p tab t n :
  run sigaction_handler (mkSys p tab t n)
  = (tt, mkSys p tab (t ++ signal_events) n).
Proof. unfold run, sigaction_handler. now mrun. Qed.

(** C1 (amended): a run of [factory_reset] that returns, and not through
    the failed mount or the failed opendir of the rootfs fallback, has
    matched every scratch mount it made by exactly one unmount: the mount
    table is empty again, the ledger of the log is closed, and every mount
    point has as many unmounts as successful mounts.  A termination signal
    runs [sigaction_handler], which unmounts nothing: the mounts open when
    it is delivered stay open. *)
Theorem factory_reset_unmounts_its_mounts (w : World)
  (Hmount : ~ In (EMount rootfs_dev rootfs_mnt (-1)) (reset_trace w))
  (Hopendir : ~ In (EOpendir "/rootfs_mnt/boot" false) (reset_trace w)) :
  mtab (snd (reset_run w)) = [] /\
  ledger [] (reset_trace w) = Some [] /\
  (forall mnt, mounts_on mnt (reset_trace w) = umounts_on mnt (reset_trace w)) /\
  forall k, ledger [] (interrupted w k) = ledger [] (firstn k (reset_trace w)).
Proof.
  assert (Closed : mtab (snd (reset_run w)) = [] /\
                   ledger [] (reset_trace w) = Some []).
  { split.
    all: revert Hmount Hopendir; unfold reset_trace;
      rewrite reset_run_summary; unfold reset_summary.
    all: repeat match goal with
           | |- context [match ?x with _ => _ end] => reset_scrutinee x
           end; cbn [fst snd trace mtab].
    all: intros Hmount Hopendir; try reflexivity.
    all: try (exfalso;
              destruct (fallback_failure_logged w (slot_suffix_or_default w)
                          _ _ Fails);
              [apply Hmount | apply Hopendir]; rewrite !in_app_iff; tauto).
    all: clear Hmount Hopendir; norm_trace.
    all: repeat first
           [ rewrite ledger_app
           | rewrite (ledger_no_mount _ _ (cache_events_no_mount w))
           | rewrite (ledger_no_mount _ _ (activation_events_no_mount w))
           | rewrite (ledger_no_mount _ _
                        (flash_system_events_no_mount w _ _ _ _))
           | rewrite (ledger_fallback _ _ _ _ _ Fails)
           | rewrite ledger_open_close
           | progress cbn [ledger Z.eqb] ].
    all: reflexivity. }
  destruct Closed as [Tab Led].
  split; [exact Tab|]. split; [exact Led|]. split.
  - intros mnt. pose proof (ledger_counts _ _ _ mnt Led) as H.
    cbn in H. lia.
  - intros k. unfold interrupted. rewrite ledger_app.
    now destruct (ledger [] (firstn k (reset_trace w))).
Qed.

Lemma factory_reset_unmounts_its_mounts_witness :
  ~ In (EMount rootfs_dev rootfs_mnt (-1)) (reset_trace world_dynamic) /\
  ~ In (EOpendir "/rootfs_mnt/boot" false) (reset_trace world_dynamic) /\
  mtab (snd (reset_run world_dynamic)) = [] /\
  ledger [] (reset_trace world_dynamic) = Some [] /\
  (forall mnt, mounts_on mnt (reset_trace world_dynamic)
               = umounts_on mnt (reset_trace world_dynamic)) /\
  forall k, ledger [] (interrupted world_dynamic k)
            = ledger [] (firstn k (reset_trace world_dynamic)).
Proof.
  assert (Hmount : ~ In (EMount rootfs_dev rootfs_mnt (-1))
                        (reset_trace world_dynamic))
    by (vm_compute; intuition discriminate).
  assert (Hopendir : ~ In (EOpendir "/rootfs_mnt/boot" false)
                          (reset_trace world_dynamic))
    by (vm_compute; intuition discriminate).
  split; [exact Hmount|]. split; [exact Hopendir|].
  exact (factory_reset_unmounts_its_mounts world_dynamic Hmount Hopendir).
Defined.

(** C1 as stated fails: a termination signal delivered right after the
    system slot is mounted ends the process with /system_mnt still
    mounted. *)
Lemma signal_leaves_system_mnt_mounted :
  interrupted world_single 3
  = [ECacheDrop; EMkdir "/system_mnt";
     EMount "/dev/mapper/dynpart-system_a" "/system_mnt" 0;
     ETerminalReset; EExit 0]
  /\ ledger [] (interrupted world_single 3) = Some ["/system_mnt"].
Proof. split; reflexivity. Qed.

(** The two [return -1] of the rootfs fallback are left out of the theorem
    above: they skip the [umount] of /system_mnt that every other exit
    makes. *)
Lemma fallback_mount_failure_leaves_system_mnt :
  reset_result world_bad_rootfs = -1 /\
  map fst (mtab (snd (reset_run world_bad_rootfs))) = ["/system_mnt"] /\
  ledger [] (reset_trace world_bad_rootfs) = Some ["/system_mnt"].
Proof. repeat split; reflexivity. Qed.

Lemma userdata_archive_cmd v archive :
  userdata_archive v = Some archive ->
  In (snprintf 1024 (tar_cmd archive)) userdata_cmds.
Proof.
  unfold userdata_archive, userdata_cmds.
  destruct (mem "userdata.img.tar.gz" (vol_files v));
    [intros [= <-]; left; reflexivity|].
  destruct (mem "userdata-raw.img.tar.gz" (vol_files v));
    [intros [= <-]; right; left; reflexivity|discriminate].
Qed.

Lemma userdata_cmd_not_dmsetup cmd :
  In cmd userdata_cmds -> cmd <> dmsetup_cmd.
Proof. intros [<-|[<-|[]]]; discriminate. Qed.

Lemma userdata_cmd_not_dd_system cmd img part sfx :
  In cmd userdata_cmds -> cmd <> snprintf 1024 (dd_system img part sfx).
Proof. intros [<-|[<-|[]]]; discriminate. Qed.

Lemma userdata_cmd_not_rootfs_cmd cmd img_file part sfx :
  In cmd userdata_cmds -> cmd <> rootfs_cmd img_file part sfx.
Proof. intros [<-|[<-|[]]]; discriminate. Qed.

(** The extraction command is run at most once, after the system slot is
    mounted, and its status is the one the world gives it. *)
Lemma userdata_step_inv w status :
  userdata_step status (reset_trace w) ->
  exists dev name v archive,
    slot_choice (paths_after_activation w) = Some (dev, name) /\
    ext4_on w dev = Some v /\
    userdata_archive v = Some archive /\
    status = sh_status w (snprintf 1024 (tar_cmd archive)).
Proof.
  intros (cmd & Hcmd & Hin).
  pose proof (userdata_cmd_not_dmsetup _ Hcmd) as N1.
  pose proof (userdata_cmd_not_dd_system cmd) as N2.
  pose proof (userdata_cmd_not_rootfs_cmd cmd) as N3.
  reset_cases w; in_trace; subst; try discriminate;
    try match goal with
    | H : ESystem _ _ = ESystem _ _ |- _ => injection H as ? ?; subst
    end;
    try congruence;
    try (exfalso; eapply N2; eauto; fail);
    try (exists dev, name, v, archive; auto; fail).
  all: apply in_fallback_events in Hin;
    destruct Hin as [[text ?]|(_ & Hin)]; [discriminate|].
  all: decompose [or and ex] Hin; subst; try discriminate.
  all: match goal with
       | H : ESystem _ _ = ESystem _ _ |- _ => injection H as ? ?; subst
       end.
  all: exfalso; eapply N3; eauto.
Qed.

(** ** C3: when the userdata step succeeds *)

(** C3 (amended): in every run whose userdata extract-and-write step
    succeeds, [factory_reset] returns 0 whatever happens to the boot and
    dtbo images (missing from the system slot and from the fallback, or
    their writes failing, or no rootfs device), with one exception: it
    returns -1 exactly when the mount of the rootfs fallback volume fails
    or its boot directory cannot be opened. *)
Theorem userdata_success_result (w : World)
  (Hdone : userdata_step 0 (reset_trace w)) :
  (reset_result w = 0 \/ reset_result w = -1) /\
  (reset_result w = -1 <->
   In (EMount rootfs_dev rootfs_mnt (-1)) (reset_trace w) \/
   In (EOpendir "/rootfs_mnt/boot" false) (reset_trace w)).
Proof.
  destruct (userdata_step_inv w 0 Hdone)
    as (dev & name & v & archive & Slot & Vol & Arch & St).
  clear Hdone.
  unfold reset_result, reset_trace. rewrite reset_run_summary.
  unfold reset_summary. rewrite Slot, Vol, Arch, <- St.
  cbn [Z.eqb].
  destruct (fallback_fails w (paths_after_activation w) v) eqn:Fails;
    cbn [fst snd trace].
  - split; [now right|]. split; [intros _|reflexivity].
    destruct (fallback_failure_logged w (slot_suffix_or_default w) _ _ Fails);
      [left|right]; rewrite !in_app_iff; tauto.
  - split; [now left|]. split; [discriminate|].
    intros [Hin|Hin]; exfalso; in_trace; try discriminate.
    all: apply in_fallback_events in Hin;
      destruct Hin as [[text ?]|(_ & Hin)]; [discriminate|].
    all: decompose [or and ex] Hin; subst; try discriminate; congruence.
Qed.

Lemma userdata_success_result_witness :
  userdata_step 0 (reset_trace world_dynamic) /\
  (reset_result world_dynamic = 0 \/ reset_result world_dynamic = -1) /\
  (reset_result world_dynamic = -1 <->
   In (EMount rootfs_dev rootfs_mnt (-1)) (reset_trace world_dynamic) \/
   In (EOpendir "/rootfs_mnt/boot" false) (reset_trace world_dynamic)).
Proof.
  assert (Hdone : userdata_step 0 (reset_trace world_dynamic)).
  { exists (snprintf 1024 (tar_cmd "/system_mnt/userdata.img.tar.gz")).
    split; [left; reflexivity|]. vm_compute. tauto. }
  split; [exact Hdone|].
  exact (userdata_success_result world_dynamic Hdone).
Defined.

Example world_dynamic_succeeds : reset_result world_dynamic = 0.
Proof. reflexivity. Qed.

(** No boot or dtbo image anywhere: two messages, userdata written, the
    run returns 0 with nothing left mounted. *)
Example no_image_anywhere :
  reset_run world_no_images
  = (0,
     mkSys [system_a_dev; rootfs_dev] []
       [ECacheDrop; EMkdir system_mnt;
        EMount system_a_dev system_mnt 0;
        ESystem (tar_cmd "/system_mnt/userdata-raw.img.tar.gz") 0;
        EPrint ("No /system_mnt/boot.img found." ++ nl);
        EPrint ("No /system_mnt/dtbo.img found." ++ nl);
        EMkdir rootfs_mnt;
        EMount rootfs_dev rootfs_mnt 0;
        EOpendir "/rootfs_mnt/boot" true;
        EClosedir "/rootfs_mnt/boot";
        EPrint ("Failed to find boot image in the rootfs" ++ nl);
        EPrint ("Failed to find dtbo image in the rootfs" ++ nl);
        EUmount rootfs_mnt; EUmount system_mnt; ECacheDrop]
       0).
Proof. reflexivity. Qed.

(** C3 as stated fails: userdata is written, the rootfs device exists but
    cannot be mounted, and the run returns -1. *)
Lemma failed_fallback_mount_is_fatal :
  userdata_step 0 (reset_trace world_bad_rootfs) /\
  In (EMount rootfs_dev rootfs_mnt (-1)) (reset_trace world_bad_rootfs) /\
  reset_result world_bad_rootfs = -1.
Proof.
  split; [|split; [vm_compute; tauto | reflexivity]].
  exists (snprintf 1024 (tar_cmd "/system_mnt/userdata.img.tar.gz")).
  split; [left; reflexivity|]. vm_compute. tauto.
Qed.

(** ** C5: when the userdata step fails *)

(** A successful mount on /system_mnt is the mount of the chosen slot. *)
Lemma system_mount_inv w dev :
  In (EMount dev system_mnt 0) (reset_trace w) ->
  exists name, slot_choice (paths_after_activation w) = Some (dev, name).
Proof.
  intros Hin.
  reset_cases w; in_trace; subst; try discriminate;
    try match goal with
    | H : EMount _ _ _ = EMount _ _ _ |- _ => inversion H; subst
    end;
    eauto.
  all: apply in_fallback_events in Hin;
    destruct Hin as [[text ?]|(_ & Hin)]; [discriminate|].
  all: decompose [or and ex] Hin; subst; discriminate.
Qed.

Lemma tar_is_no_image_write cmd :
  In cmd userdata_cmds -> targets "boot" cmd || targets "dtbo" cmd = false.
Proof. intros [<-|[<-|[]]]; reflexivity. Qed.

Lemma forallb_cache_events w (f : Event -> bool) :
  f ECacheDrop = true -> forallb f (cache_events w) = true.
Proof.
  intros H. unfold cache_events.
  destruct (cache_ctl w); cbn [forallb]; now rewrite ?H.
Qed.

Lemma forallb_activation_events w (f : Event -> bool) :
  f (ESystem dmsetup_cmd (sh_status w dmsetup_cmd)) = true ->
  forallb f (activation_events w) = true.
Proof.
  intros H. unfold activation_events.
  destruct (needs_activation (dev_nodes w)); cbn [forallb]; now rewrite ?H.
Qed.

(** C5: a run that finds neither userdata archive on the system slot it
    mounted, or whose extract-and-write command exits with a status other
    than 0, returns -1 and makes no write to a boot or dtbo partition. *)
Theorem userdata_failure_aborts (w : World)
  (Hfail :
     (exists dev v,
        In (EMount dev system_mnt 0) (reset_trace w) /\
        ext4_on w dev = Some v /\
        mem "userdata.img.tar.gz" (vol_files v) = false /\
        mem "userdata-raw.img.tar.gz" (vol_files v) = false)
     \/ (exists status, status <> 0 /\ userdata_step status (reset_trace w))) :
  reset_result w = -1 /\
  forallb (fun e => negb (is_image_write e)) (reset_trace w) = true.
Proof.
  assert (exists dev name v,
             slot_choice (paths_after_activation w) = Some (dev, name) /\
             ext4_on w dev = Some v /\
             match userdata_archive v with
             | Some archive =>
                 (sh_status w (snprintf 1024 (tar_cmd archive)) =? 0) = false
             | None => True
             end) as (dev & name & v & Slot & Vol & Stop).
  { destruct Hfail as [(dev & v & Hin & Vol & No1 & No2)
                      |(status & Hst & Hstep)].
    - destruct (system_mount_inv w dev Hin) as [name Slot].
      exists dev, name, v. repeat split; auto.
      unfold userdata_archive. now rewrite No1, No2.
    - destruct (userdata_step_inv w status Hstep)
        as (dev & name & v & archive & Slot & Vol & Arch & St).
      exists dev, name, v. repeat split; auto.
      rewrite Arch. apply Z.eqb_neq. congruence. }
  clear Hfail.
  unfold reset_result, reset_trace. rewrite reset_run_summary.
  unfold reset_summary. rewrite Slot, Vol.
  destruct (userdata_archive v) as [archive|] eqn:Arch;
    [rewrite Stop|]; cbn [fst snd trace]; (split; [reflexivity|]).
  all: rewrite !forallb_app, forallb_cache_events, forallb_activation_events
    by reflexivity.
  all: cbn [forallb is_image_write negb andb]; try reflexivity.
  now rewrite (tar_is_no_image_write _ (userdata_archive_cmd _ _ Arch)).
Qed.

Lemma userdata_failure_aborts_witness :
  reset_result (with_status world_dynamic
                  (snprintf 1024 (tar_cmd "/system_mnt/userdata.img.tar.gz")) 1)
  = -1 /\
  forallb (fun e => negb (is_image_write e))
    (reset_trace
       (with_status world_dynamic
          (snprintf 1024 (tar_cmd "/system_mnt/userdata.img.tar.gz")) 1))
  = true.
Proof.
  apply userdata_failure_aborts. right. exists 1. split; [lia|].
  exists (snprintf 1024 (tar_cmd "/system_mnt/userdata.img.tar.gz")).
  split; [left; reflexivity|]. vm_compute. tauto.
Defined.

(** Neither archive name on the slot: the run stops right after the mount,
    unmounts and writes nothing. *)
Example no_archive_on_slot :
  reset_run world_no_archive
  = (-1,
     mkSys [system_a_dev] []
       [ECacheDrop; EMkdir system_mnt;
        EMount system_a_dev system_mnt 0;
        EPrint ("Failed to find userdata archive" ++ nl);
        EUmount system_mnt]
       0).
Proof. reflexivity. Qed.

(** The predicate is not vacuous: the successful run on the same machine
    makes three image writes. *)
Example world_dynamic_image_writes :
  List.length (filter is_image_write (reset_trace world_dynamic)) = 3%nat.
Proof. reflexivity. Qed.

(** ** C6: the rootfs fallback *)

Lemma strncmp_eq_prefix name d_name :
  strncmp_eq d_name name (strlen name) = String.prefix name d_name.
Proof.
  unfold strncmp_eq, strlen.
  revert d_name; induction name as [|c name IH]; intros d_name.
  - destruct d_name; reflexivity.
  - destruct d_name as [|d d_name]; [reflexivity|].
    cbn [String.length strncpy String.prefix String.eqb].
    destruct (ascii_dec c d) as [->|N].
    + rewrite Ascii.eqb_refl. apply IH.
    + apply Ascii.eqb_neq in N. rewrite Ascii.eqb_sym in N. now rewrite N.
Qed.

(** The readdir loop stops at the first entry that matches. *)
Lemma scan_boot_dir_first name entries d_name :
  first_match name entries = Some d_name ->
  scan_boot_dir name entries = strncpy 255 d_name.
Proof.
  unfold first_match.
  induction entries as [|e entries IH]; [discriminate|].
  cbn [find scan_boot_dir]. rewrite strncmp_eq_prefix.
  destruct (String.prefix name e); [now intros [= ->]|exact IH].
Qed.

Lemma first_match_prefix name entries d_name :
  first_match name entries = Some d_name -> String.prefix name d_name = true.
Proof. intros H. now apply find_some in H. Qed.

Lemma slot_suffix_length w :
  (String.length (slot_suffix_or_default w) <= 2)%nat.
Proof.
  unfold slot_suffix_or_default.
  destruct (get_slot_suffix w) as [s|] eqn:E; [|simpl; lia].
  exact (get_slot_suffix_length _ _ E).
Qed.

Lemma snprintf_fits size text :
  (String.length text < size)%nat -> snprintf size text = text.
Proof. intros H. apply strncpy_short. lia. Qed.

(** The command of lines 826-830 and 846-850 is not truncated. *)
Lemma rootfs_cmd_exact d_name part sfx :
  (String.length d_name <= 255)%nat ->
  (String.length part <= 4)%nat ->
  (String.length sfx <= 2)%nat ->
  rootfs_cmd d_name part sfx
  = dd_rootfs ("/rootfs_mnt/boot/" ++ d_name) part sfx.
Proof.
  intros Hd Hp Hs. unfold rootfs_cmd.
  rewrite (snprintf_fits 512) by (rewrite append_length; simpl; lia).
  apply snprintf_fits. unfold dd_rootfs.
  rewrite !append_length. simpl. lia.
Qed.

Lemma mem_In x l : mem x l = true <-> In x l.
Proof.
  unfold mem. rewrite existsb_exists. split.
  - intros (y & Hy & E). apply String.eqb_eq in E. now subst.
  - intros H. exists x. split; [exact H|apply String.eqb_refl].
Qed.

Lemma paths_after_activation_keep w x :
  In x (dev_nodes w) -> mem x (paths_after_activation w) = true.
Proof.
  intros H. apply mem_In. unfold paths_after_activation.
  destruct (needs_activation (dev_nodes w)); [apply in_or_app|]; auto.
Qed.

Lemma image_part_length i : (String.length (image_part i) <= 4)%nat.
Proof. destruct i; simpl; lia. Qed.

(** C6 (amended): in a run that mounted the system slot and wrote
    userdata, when boot.img or dtbo.img is absent from the system slot and
    the rootfs device exists, mounts and has a readable boot directory,
    the fallback is mounted on /rootfs_mnt and its boot directory is
    searched for both images: for each of boot.img and dtbo.img, the first
    entry in enumeration order whose name begins with that name is flashed
    to boot<suffix>, respectively dtbo<suffix>.  That holds for an image
    that was found on the system slot as well: the search is not limited
    to the missing image.  Entry names are at most 255 characters, the
    bound of [d_name] in [struct dirent]. *)
Theorem fallback_flashes_first_match (w : World) (i : Image)
  (dev : string) (v vr : Volume) (entries : list string) (d_name : string)
  (Hslot : In (EMount dev system_mnt 0) (reset_trace w))
  (Hvol : ext4_on w dev = Some v)
  (Hdata : userdata_step 0 (reset_trace w))
  (Hmissing : mem "boot.img" (vol_files v) = false \/
              mem "dtbo.img" (vol_files v) = false)
  (Hnode : In rootfs_dev (dev_nodes w))
  (Hrootfs : ext4_on w rootfs_dev = Some vr)
  (Hboot : vol_boot vr = Some entries)
  (Hfirst : first_match (image_name i) entries = Some d_name)
  (Hlen : (String.length d_name <= 255)%nat) :
  let cmd := dd_rootfs ("/rootfs_mnt/boot/" ++ d_name) (image_part i)
               (slot_suffix_or_default w) in
  In (EMount rootfs_dev rootfs_mnt 0) (reset_trace w) /\
  In (ESystem cmd (sh_status w cmd)) (reset_trace w) /\
  reset_result w = 0.
Proof.
  intros cmd.
  destruct (system_mount_inv w dev Hslot) as [name Slot].
  destruct (userdata_step_inv w 0 Hdata)
    as (dev' & name' & v' & archive & Slot' & Vol' & Arch & St).
  rewrite Slot in Slot'. injection Slot' as <- <-.
  rewrite Hvol in Vol'. injection Vol' as <-.
  clear Hslot Hdata.
  assert (Missing : image_missing v = true).
  { unfold image_missing. destruct Hmissing as [-> | ->]; cbn;
      auto using orb_true_r. }
  assert (Node : mem rootfs_dev (paths_after_activation w) = true)
    by now apply paths_after_activation_keep.
  assert (Fails : fallback_fails w (paths_after_activation w) v = false).
  { unfold fallback_fails. rewrite Hrootfs, Hboot. apply andb_false_r. }
  assert (Cmd : rootfs_cmd (scan_boot_dir (image_name i) entries)
                  (image_part i) (slot_suffix_or_default w) = cmd).
  { rewrite (scan_boot_dir_first _ _ _ Hfirst).
    rewrite (strncpy_short 255) by exact Hlen.
    apply rootfs_cmd_exact;
      auto using image_part_length, slot_suffix_length. }
  assert (Found : scan_boot_dir (image_name i) entries <> EmptyString).
  { rewrite (scan_boot_dir_first _ _ _ Hfirst).
    rewrite (strncpy_short 255) by exact Hlen.
    apply first_match_prefix in Hfirst.
    destruct d_name; [|discriminate]. now destruct i. }
  unfold reset_result, reset_trace. rewrite reset_run_summary.
  unfold reset_summary. rewrite Slot, Hvol, Arch, <- St, Fails.
  cbn [Z.eqb fst snd trace].
  unfold fallback_events. rewrite Missing, Node, Hrootfs, Hboot.
  split; [|split; [|reflexivity]].
  - rewrite !in_app_iff. cbn [In]. tauto.
  - rewrite !in_app_iff. left. do 3 right. cbn [In]. do 4 right.
    rewrite !in_app_iff. unfold flash_rootfs_events.
    destruct i; cbn [image_name image_part] in *;
      destruct (scan_boot_dir _ entries) as [|c rest] eqn:Scan;
      try congruence; cbn [if_set In]; rewrite Cmd; tauto.
Qed.

Lemma fallback_flashes_first_match_witness :
  let cmd := dd_rootfs "/rootfs_mnt/boot/boot.img-5.10" "boot" "_b" in
  In (EMount rootfs_dev rootfs_mnt 0) (reset_trace world_dynamic) /\
  In (ESystem cmd 0) (reset_trace world_dynamic) /\
  reset_result world_dynamic = 0.
Proof.
  apply (fallback_flashes_first_match world_dynamic Boot system_b_dev
           slot_volume rootfs_volume
           ["."; ".."; "boot.img-5.10"; "dtbo.img-5.10"; "boot.img"]
           "boot.img-5.10").
  - vm_compute. tauto.
  - reflexivity.
  - exists (snprintf 1024 (tar_cmd "/system_mnt/userdata.img.tar.gz")).
    split; [left; reflexivity|]. vm_compute. tauto.
  - left. reflexivity.
  - vm_compute. tauto.
  - reflexivity.
  - reflexivity.
  - reflexivity.
  - vm_compute. lia.
Defined.

(** C6 as stated fails: dtbo.img is on the system slot and is flashed from
    there, only boot.img is missing, and still the fallback is searched for
    dtbo.img too and its match is flashed over the dtbo partition again. *)
Lemma fallback_reflashes_image_found_on_system :
  mem "dtbo.img" (vol_files slot_volume) = true /\
  filter is_image_write (reset_trace world_dynamic)
  = [ESystem "dd if=/system_mnt/dtbo.img of=/dev/disk/by-partlabel/dtbo_b bs=4M" 0;
     ESystem (dd_rootfs "/rootfs_mnt/boot/boot.img-5.10" "boot" "_b") 0;
     ESystem (dd_rootfs "/rootfs_mnt/boot/dtbo.img-5.10" "dtbo" "_b") 0].
Proof. split; reflexivity. Qed.

(** ** C7: topology resolution *)

Lemma filter_none {A} (f : A -> bool) l :
  (forall x, In x l -> f x = false) -> filter f l = [].
Proof.
  induction l as [|x l IH]; [reflexivity|]. intros H. cbn [filter].
  rewrite (H x) by now left. apply IH. intros y Hy. apply H. now right.
Qed.

Lemma system_mounts_cache w : filter is_system_mount (cache_events w) = [].
Proof.
  apply filter_none. intros e H. now apply in_cache_events in H as ->.
Qed.

Lemma system_mounts_activation w :
  filter is_system_mount (activation_events w) = [].
Proof.
  apply filter_none. intros e H. now apply in_activation_events in H as [_ ->].
Qed.

Lemma system_mounts_flash w img part sfx v :
  filter is_system_mount (flash_system_events w img part sfx v) = [].
Proof.
  apply filter_none. intros e H.
  now apply in_flash_system_events in H as [[_ ->]|[text ->]].
Qed.

Lemma system_mounts_fallback w sfx p v :
  filter is_system_mount (fallback_events w sfx p v) = [].
Proof.
  apply filter_none. intros e H.
  apply in_fallback_events in H as [[text ->]|[_ H]]; [reflexivity|].
  decompose [or and ex] H; subst; reflexivity.
Qed.

(** C7: with [devs] the device nodes present once the activation step is
    over, the run makes at most one mount call on /system_mnt: on
    dynpart-system_a when that node exists, also when dynpart-system_b
    exists too; otherwise on dynpart-system_b when that one exists;
    otherwise none.  When no node exists or the mount call fails the run
    returns -1 with nothing mounted.  So exactly one of three things
    happens: slot A is mounted, slot B is mounted, or the run fails with no
    system slot mounted. *)
Theorem topology_resolution (w : World) :
  let devs := paths (snd (reset_run w)) in
  let attempts := filter is_system_mount (reset_trace w) in
  (List.length attempts <= 1)%nat /\
  (if mem system_a_dev devs then
     match ext4_on w system_a_dev with
     | Some _ => attempts = [EMount system_a_dev system_mnt 0]
     | None => attempts = [EMount system_a_dev system_mnt (-1)] /\
               reset_result w = -1 /\ mtab (snd (reset_run w)) = []
     end
   else if mem system_b_dev devs then
     match ext4_on w system_b_dev with
     | Some _ => attempts = [EMount system_b_dev system_mnt 0]
     | None => attempts = [EMount system_b_dev system_mnt (-1)] /\
               reset_result w = -1 /\ mtab (snd (reset_run w)) = []
     end
   else
     attempts = [] /\ reset_result w = -1 /\ mtab (snd (reset_run w)) = [])
  /\ (attempts = [EMount system_a_dev system_mnt 0] \/
      attempts = [EMount system_b_dev system_mnt 0] \/
      (forall dev, ~ In (EMount dev system_mnt 0) attempts) /\
      reset_result w = -1 /\ mtab (snd (reset_run w)) = []).
Proof.
  cbv zeta. rewrite reset_paths.
  unfold reset_result, reset_trace. rewrite reset_run_summary.
  unfold reset_summary, slot_choice.
  destruct (mem system_a_dev (paths_after_activation w));
    [|destruct (mem system_b_dev (paths_after_activation w))].
  all: repeat match goal with
         | |- context [match ?x with _ => _ end] => reset_scrutinee x
         end; cbn [fst snd trace mtab].
  all: rewrite ?filter_app, ?system_mounts_cache, ?system_mounts_activation,
         ?system_mounts_flash, ?system_mounts_fallback.
  all: cbn [filter is_system_mount app]; rewrite ?String.eqb_refl.
  all: change (String.eqb system_mnt system_mnt) with true; cbn [app length].
  all: split; [lia|]; split; [repeat split|]; auto.
  all: right; right; repeat split.
  all: intros dev' [H|[]]; discriminate.
Qed.

(** Both logical slots present: slot A is the one mounted. *)
Example slot_a_preferred :
  let w := {| proc_cmdline := None;
              malloc_ok := true;
              dev_nodes := [system_b_dev; system_a_dev];
              activation := [];
              ext4_on := fun _ => Some slot_volume;
              sh_status := fun _ => 0;
              cache_ctl := CacheOpenFails;
              luks_probe := fun _ _ => 0;
              unlock_helper := fun _ => 0 |} in
  filter is_system_mount (reset_trace w) = [EMount system_a_dev system_mnt 0].
Proof. reflexivity. Qed.

(** ** C8: dynamic-partition activation *)

Lemma activations_cache w : filter is_activation (cache_events w) = [].
Proof.
  apply filter_none. intros e H. now apply in_cache_events in H as ->.
Qed.

Lemma activations_flash w img part sfx v :
  filter is_activation (flash_system_events w img part sfx v) = [].
Proof.
  apply filter_none. intros e H.
  apply in_flash_system_events in H as [[_ ->]|[text ->]]; [|reflexivity].
  apply dd_system_not_dmsetup.
Qed.

Lemma activations_fallback w sfx p v :
  filter is_activation (fallback_events w sfx p v) = [].
Proof.
  apply filter_none. intros e H.
  apply in_fallback_events in H as [[text ->]|[_ H]]; [reflexivity|].
  decompose [or and ex] H; subst; reflexivity.
Qed.

Lemma with_status_other w status cmd :
  String.eqb cmd dmsetup_cmd = false ->
  sh_status (with_status w dmsetup_cmd status) cmd = sh_status w cmd.
Proof. intros H. unfold with_status. cbn [sh_status]. now rewrite H. Qed.

Lemma flash_system_events_with_status w status img part sfx v :
  flash_system_events (with_status w dmsetup_cmd status) img part sfx v
  = flash_system_events w img part sfx v.
Proof.
  unfold flash_system_events.
  now rewrite with_status_other by apply dd_system_not_dmsetup.
Qed.

Lemma flash_rootfs_events_with_status w status img_file img part sfx :
  flash_rootfs_events (with_status w dmsetup_cmd status) img_file img part sfx
  = flash_rootfs_events w img_file img part sfx.
Proof.
  unfold flash_rootfs_events.
  now rewrite with_status_other by apply dd_rootfs_not_dmsetup.
Qed.

Lemma fallback_events_with_status w status sfx p v :
  fallback_events (with_status w dmsetup_cmd status) sfx p v
  = fallback_events w sfx p v.
Proof.
  unfold fallback_events.
  change (ext4_on (with_status w dmsetup_cmd status)) with (ext4_on w).
  destruct (ext4_on w rootfs_dev) as [vr|]; [|reflexivity].
  destruct (vol_boot vr) as [entries|]; [|reflexivity].
  now rewrite !flash_rootfs_events_with_status.
Qed.

Lemma fallback_fails_with_status w status p v :
  fallback_fails (with_status w dmsetup_cmd status) p v = fallback_fails w p v.
Proof. reflexivity. Qed.

Lemma besides_activation_events w :
  besides_activation (activation_events w) = [].
Proof.
  unfold besides_activation, activation_events.
  destruct (needs_activation (dev_nodes w)); [|reflexivity].
  cbn [filter is_activation]. now rewrite String.eqb_refl.
Qed.

(** C8: the activation command is run exactly when the super device
    exists and neither dynpart-system_a nor dynpart-system_b does, and then
    once; its exit status is not looked at: with any other status the run
    returns the same result, leaves the same mounts and makes the same
    other calls. *)
Theorem activation_only_when_needed (w : World) :
  filter is_activation (reset_trace w)
  = (if mem super_dev (dev_nodes w)
        && negb (mem system_a_dev (dev_nodes w))
        && negb (mem system_b_dev (dev_nodes w))
     then [ESystem dmsetup_cmd (sh_status w dmsetup_cmd)]
     else [])
  /\ forall status,
       let w' := with_status w dmsetup_cmd status in
       reset_result w' = reset_result w /\
       mtab (snd (reset_run w')) = mtab (snd (reset_run w)) /\
       besides_activation (reset_trace w') = besides_activation (reset_trace w).
Proof.
  split.
  - unfold reset_trace. rewrite reset_run_summary. unfold reset_summary.
    repeat match goal with
           | |- context [match ?x with _ => _ end] => reset_scrutinee x
           end; cbn [fst snd trace].
    all: rewrite ?filter_app, ?activations_cache, ?activations_flash,
           ?activations_fallback.
    all: cbn [filter is_activation app];
      rewrite ?tar_not_dmsetup, ?app_nil_r.
    all: unfold activation_events, needs_activation.
    all: destruct (mem super_dev (dev_nodes w) && _ && _); [|reflexivity].
    all: cbn [filter is_activation]; now rewrite String.eqb_refl.
  - intros status w'.
    unfold reset_result, reset_trace. rewrite !reset_run_summary.
    unfold reset_summary, besides_activation.
    change (paths_after_activation w') with (paths_after_activation w).
    change (slot_suffix_or_default w') with (slot_suffix_or_default w).
    change (cache_events w') with (cache_events w).
    change (ext4_on w') with (ext4_on w).
    unfold w'; clear w'.
    destruct (slot_choice (paths_after_activation w)) as [[dev name]|];
      [destruct (ext4_on w dev) as [v|];
       [destruct (userdata_archive v) as [archive|]|]|].
    all: rewrite ?flash_system_events_with_status,
           ?fallback_events_with_status, ?fallback_fails_with_status.
    all: rewrite ?with_status_other by apply tar_not_dmsetup.
    all: repeat match goal with
           | |- context [match ?x with _ => _ end] => reset_scrutinee x
           end.
    all: cbn [fst snd trace mtab]; repeat split.
    all: rewrite !filter_app.
    all: fold (besides_activation (activation_events w)).
    all: fold (besides_activation
                 (activation_events (with_status w dmsetup_cmd status))).
    all: now rewrite !besides_activation_events.
Qed.

Example activation_in_world_dynamic :
  filter is_activation (reset_trace world_dynamic)
  = [ESystem dmsetup_cmd 0].
Proof. reflexivity. Qed.

Example no_activation_in_world_single :
  filter is_activation (reset_trace world_single) = [].
Proof. reflexivity. Qed.

(** ** C9: the reset entry point *)

Lemma call_factory_reset {R} w t n :
  @call Z R (factory_reset w) (mkSys (dev_nodes w) [] t n)
  = (inr (fst (fst (reset_summary w))),
     mkSys (paths_after_activation w) (snd (fst (reset_summary w)))
       (t ++ snd (reset_summary w)) n).
Proof.
  unfold call. rewrite factory_reset_run.
  now destruct (reset_summary w) as [[r tab] es].
Qed.

(** Every reset run creates the scratch directory of the system slot. *)
Lemma reset_makes_system_mnt w : In (EMkdir system_mnt) (reset_trace w).
Proof.
  rewrite reset_trace_summary. unfold reset_summary.
  repeat match goal with
         | |- context [match ?x with _ => _ end] => reset_scrutinee x
         end; cbn [snd].
  all: rewrite !in_app_iff; cbn [In]; tauto.
Qed.

(** C9: [perform_factory_reset] branches three ways on the result of the
    header inspection of the reserved volume.  On -1 it closes the progress
    box and shows the failure box, without any call of the reset; on 1 it
    opens the password screen, closes the progress box and returns,
    without any call of the reset; on any other result, 0 among the three
    the inspection has, it runs [factory_reset] and shows the box that
    matches its result.  So the reset is attempted in this callback exactly
    when the result is neither -1 nor 1. *)
Theorem perform_factory_reset_outcomes (w : World) :
  let probe := luks_probe w reserved_volume 64 in
  trace (perform_run w)
  = (if probe =? -1 then [EMsgboxClose resetting; failed_box]
     else if probe =? 1 then [EPasswordScreen; EMsgboxClose resetting]
     else reset_trace w
          ++ [EMsgboxClose resetting;
              if reset_result w =? 0 then success_box else failed_box])%list
  /\ (In (EMkdir system_mnt) (trace (perform_run w))
      <-> probe <> -1 /\ probe <> 1)
  /\ (probe = -1 \/ probe = 1 ->
      mtab (perform_run w) = [] /\ paths (perform_run w) = dev_nodes w).
Proof.
  intros probe.
  assert (E : perform_run w
              = if probe =? -1
                then mkSys (dev_nodes w) [] [EMsgboxClose resetting; failed_box] 0
                else if probe =? 1
                then mkSys (dev_nodes w) []
                       [EPasswordScreen; EMsgboxClose resetting] 0
                else mkSys (paths_after_activation w)
                       (snd (fst (reset_summary w)))
                       (reset_trace w
                        ++ [EMsgboxClose resetting;
                            if reset_result w =? 0
                            then success_box else failed_box]) 0).
  { unfold perform_run, perform_factory_reset, boot_state, run.
    unfold bind at 1. unfold is_lv_encrypted_with_luks.
    fold reserved_volume. fold probe.
    destruct (probe =? -1); [now mrun|].
    destruct (probe =? 1); mrun; [reflexivity|].
    mcall call_factory_reset.
    rewrite reset_result_summary, reset_trace_summary.
    destruct (fst (fst (reset_summary w)) =? 0); now mrun. }
  rewrite E. clear E.
  pose proof (reset_makes_system_mnt w) as Mk.
  destruct (Z.eqb_spec probe (-1)) as [E1|N1];
    [|destruct (Z.eqb_spec probe 1) as [E2|N2]]; cbn [trace mtab paths].
  - split; [reflexivity|]. split; [|auto].
    split; [cbn [In]; intros [H|[H|[]]]; discriminate|tauto].
  - split; [reflexivity|]. split; [|auto].
    split; [cbn [In]; intros [H|[H|[]]]; discriminate|tauto].
  - split; [reflexivity|]. split; [|tauto].
    split; [tauto|]. intros _. apply in_or_app. now left.
Qed.

Example perform_on_unreadable_header :
  perform_run world_bad_rootfs
  = mkSys [system_a_dev; rootfs_dev] [] [EMsgboxClose resetting; failed_box] 0.
Proof. reflexivity. Qed.

Example perform_on_locked_header :
  trace (perform_run world_dynamic) = [EPasswordScreen; EMsgboxClose resetting].
Proof. reflexivity. Qed.

Example perform_on_plain_volume :
  trace (perform_run world_single)
  = (reset_trace world_single ++ [EMsgboxClose resetting; success_box])%list.
Proof. reflexivity. Qed.

(** ** C10 and C2: the password gate *)

Lemma wrap_int_small n : 0 <= n < 2 ^ 31 - 1 -> wrap_int (n + 1) = n + 1.
Proof.
  intros H. unfold wrap_int.
  rewrite Z.mod_small by lia. lia.
Qed.

Lemma check_password_run w password p tab t n :
  let result := unlock_helper w password in
  run (check_password w password) (mkSys p tab t n)
  = (tt,
     if result =? EXIT_SUCCESS then
       mkSys p tab
         (t ++ [EUnlock password result; EMsgbox resetting [];
                ETimer cb_factory_reset_password 500]) n
     else if result =? 2 then
       mkSys p tab
         (t ++ EUnlock password result ::
               if wrap_int (n + 1) >=? 3 then [lockout_box] else [])
         (wrap_int (n + 1))
     else mkSys p tab (t ++ [EUnlock password result]) n).
Proof.
  intros result. unfold run, check_password.
  unfold bind at 1. unfold mount_luks_lvm_droidian_helper. fold result.
  unfold emit; cbn [paths mtab trace attempt_count].
  destruct (result =? EXIT_SUCCESS); [now mrun|].
  destruct (result =? 2); [|now mrun].
  cbn [when]. unfold bind at 1, load_attempt_count.
  unfold bind at 1, store_attempt_count, set_attempt_count;
    cbn [paths mtab trace attempt_count].
  unfold bind at 1; cbn [attempt_count].
  destruct (wrap_int (n + 1) >=? 3); now mrun.
Qed.

(** C10: one submission changes the attempt counter only when the helper
    returns exactly 2, and then by one; when it returns EXIT_SUCCESS the
    progress box is shown and [factory_reset_password] is put on a timer,
    whatever the counter is; on any other return nothing is shown and the
    counter and the rest of the state stay as they are. *)
Theorem check_password_cases (w : World) (password : string)
  (p : list string) (tab : list (string * Volume)) (t : list Event) (n : Z) :
  let result := unlock_helper w password in
  let s' := snd (run (check_password w password) (mkSys p tab t n)) in
  paths s' = p /\ mtab s' = tab /\
  attempt_count s' = (if result =? 2 then wrap_int (n + 1) else n) /\
  trace s'
  = (t ++ EUnlock password result ::
       if result =? EXIT_SUCCESS
       then [EMsgbox resetting []; ETimer cb_factory_reset_password 500]
       else if (result =? 2) && (wrap_int (n + 1) >=? 3)
       then [lockout_box]
       else [])%list.
Proof.
  intros result s'. unfold s'. rewrite check_password_run. fold result.
  unfold EXIT_SUCCESS.
  destruct (Z.eqb_spec result 0) as [E|N].
  - rewrite E. cbn [snd paths mtab trace attempt_count Z.eqb].
    repeat split.
  - destruct (result =? 2); cbn [snd paths mtab trace attempt_count andb];
      repeat split.
Qed.

(** C2 fails on the code: after three wrong passwords the lockout box is
    shown, but the fourth submission is still handed to the unlock helper,
    and as that password is the right one the reset is scheduled. *)
Theorem fourth_submission_unlocks :
  gate_run world_single ["0000"; "1234"; "abcd"; "secret"]
  = mkSys [system_a_dev] []
      [EUnlock "0000" 2; EUnlock "1234" 2; EUnlock "abcd" 2; lockout_box;
       EUnlock "secret" 0; EMsgbox resetting [];
       ETimer cb_factory_reset_password 500]
      3.
Proof. reflexivity. Qed.

(** The same on every machine and from any count: a password the helper
    accepts schedules the reset, also when the counter has reached 3. *)
Lemma correct_password_always_unlocks w password p tab t n :
  unlock_helper w password = EXIT_SUCCESS ->
  trace (snd (run (check_password w password) (mkSys p tab t n)))
  = (t ++ [EUnlock password 0; EMsgbox resetting [];
           ETimer cb_factory_reset_password 500])%list.
Proof.
  intros H. rewrite check_password_run, H. reflexivity.
Qed.

Lemma submit_app w first rest s :
  run (submit w (first ++ rest)) s
  = run (submit w rest) (snd (run (submit w first) s)).
Proof.
  revert s; induction first as [|password first IH]; intros s.
  - reflexivity.
  - cbn [app submit]. unfold run at 1 3, bind, call.
    destruct (run (check_password w password) s) as [[] s'].
    exact (IH s').
Qed.

(** No number of wrong passwords closes the gate: whatever was submitted
    before, a password the helper accepts schedules the reset. *)
Lemma gate_never_locks w earlier password :
  unlock_helper w password = EXIT_SUCCESS ->
  In (ETimer cb_factory_reset_password 500)
    (trace (gate_run w (earlier ++ [password]))).
Proof.
  intros H. unfold gate_run. rewrite submit_app.
  destruct (snd (run (submit w earlier) (boot_state w))) as [p tab t n].
  cbn [submit]. unfold run at 1, bind, call.
  rewrite check_password_run, H. cbn [Z.eqb EXIT_SUCCESS ret snd trace].
  apply in_or_app. right. cbn [In]. tauto.
Qed.

(** * The rest of the program: what it guarantees *)

(** ** Integers kept in files *)

Lemma append_assoc (a b c : string) : (a ++ b) ++ c = a ++ (b ++ c).
Proof. induction a as [|x a IH]; cbn; [reflexivity | now rewrite IH]. Qed.





Lemma decimal_digits_app fuel :
  forall n acc,
    decimal_digits fuel n acc = decimal_digits fuel n EmptyString ++ acc.
Proof.
  induction fuel as [|fuel IH]; intros n acc; cbn [decimal_digits];
    [reflexivity|].
  destruct (n <? 10); [reflexivity|].
  rewrite IH, (IH _ (String _ EmptyString)), append_assoc. reflexivity.
Qed.







Lemma fgets_nonempty size c s :
  (1 < size)%nat -> fgets size (String c s) = Some (read_line (size - 1) (String c s)).
Proof.
  intros H. unfold fgets.
  destruct size as [|[|size]]; try lia. reflexivity.
Qed.



Lemma wrap_int_id n : - 2 ^ 31 <= n < 2 ^ 31 -> wrap_int n = n.
Proof. intros H. unfold wrap_int. rewrite Z.mod_small; lia. Qed.











Lemma append_nil (t : string) : t ++ EmptyString = t.
Proof. induction t as [|x t IH]; cbn; [reflexivity | now rewrite IH]. Qed.






(** The check [value >= 0] is made on the [long]: a number above [INT_MAX]
    passes it and comes back negative. *)
Example read_int_above_int_max :
  fst (read_int_from_file lp64 BRIGHTNESS_PATH 255
         (disk_of [(BRIGHTNESS_PATH, "4294967295" ++ nl)])) = -1.
Proof. reflexivity. Qed.



(** X4.  An empty first line is not an error: [strtol] reads it as 0 and
    leaves nothing behind, so the function returns 0, not the default. *)
Theorem read_int_blank_line_is_zero m path default_value d rest :
  files d path = Some (String newline rest) ->
  fst (read_int_from_file m path default_value d) = 0.
Proof.
  intros Hfile. unfold read_int_from_file. rewrite Hfile. reflexivity.
Qed.

Lemma read_int_blank_line_is_zero_witness :
  fst (read_int_from_file lp64 BRIGHTNESS_PATH 255
         (disk_of [(BRIGHTNESS_PATH, nl)])) = 0.
Proof.
  apply (read_int_blank_line_is_zero lp64 BRIGHTNESS_PATH 255
           (disk_of [(BRIGHTNESS_PATH, nl)]) EmptyString).
  reflexivity.
Defined.



(** ** The console *)

Lemma tty_ledger_app held a b :
  tty_ledger held (a ++ b)
  = match tty_ledger held a with
    | Some held' => tty_ledger held' b
    | None => None
    end.
Proof.
  revert held. induction a as [|e a IH]; intros held; [reflexivity|].
  cbn [app tty_ledger]. destruct e.
  - destruct held; [apply IH | reflexivity].
  - destruct (existsb (Z.eqb fd) held); [apply IH | reflexivity].
  - destruct (existsb (Z.eqb fd) held); [apply IH | reflexivity].
  - apply IH.
Qed.



Lemma tty_warn_accounted text t :
  tty_accounted t -> tty_accounted (tty_emit (TtyWarn text) t).
Proof.
  unfold tty_accounted, tty_emit, tty_held. cbn [tty_log current_fd].
  intros H. now rewrite tty_ledger_app, H.
Qed.

Lemma close_current_terminal_accounted t :
  tty_accounted t ->
  tty_accounted (close_current_terminal t) /\
  tty_held (close_current_terminal t) = [].
Proof.
  unfold tty_accounted, close_current_terminal, tty_held.
  destruct (Z.ltb_spec (current_fd t) 0) as [Hneg|Hpos].
  - destruct (Z.ltb_spec (current_fd t) 0); [auto|lia].
  - cbn [tty_log current_fd]. intros H. rewrite tty_ledger_app, H.
    cbn [tty_ledger existsb filter]. rewrite Z.eqb_refl.
    cbn [orb negb]. auto.
Qed.

Lemma reopen_current_terminal_accounted opened t :
  tty_accounted t ->
  tty_accounted (snd (reopen_current_terminal opened t)).
Proof.
  intros H. apply close_current_terminal_accounted in H as [H Hheld].
  unfold reopen_current_terminal. cbn [current_fd].
  set (t' := mkTty opened _).
  assert (H' : tty_accounted t').
  { unfold tty_accounted, t' in *. cbn [tty_log].
    rewrite tty_ledger_app, H, Hheld. reflexivity. }
  destruct (opened <? 0); cbn [snd]; [now apply tty_warn_accounted|assumption].
Qed.

Lemma kdsetmode_accounted mode result t :
  tty_accounted t -> tty_accounted (snd (kdsetmode_fails mode result t)).
Proof.
  unfold kdsetmode_fails, tty_accounted, tty_held, tty_emit.
  destruct (current_fd t <? 0) eqn:E; cbn [snd tty_log current_fd];
    rewrite E; [auto|].
  intros H. rewrite tty_ledger_app, H. cbn [tty_ledger existsb].
  now rewrite Z.eqb_refl.
Qed.

Lemma tty_call_accounted c t :
  tty_accounted t -> tty_accounted (tty_call c t).
Proof.
  intros H. destruct c as [opened result|result]; cbn [tty_call].
  - unfold ul_terminal_prepare_current_terminal.
    apply reopen_current_terminal_accounted with (opened := opened) in H.
    apply kdsetmode_accounted with (mode := KD_GRAPHICS) (result := result)
      in H.
    destruct (kdsetmode_fails _ _ _) as [[] t']; cbn [snd] in H;
      [now apply tty_warn_accounted | assumption].
  - unfold ul_terminal_reset_current_terminal.
    apply kdsetmode_accounted with (mode := KD_TEXT) (result := result) in H.
    destruct (kdsetmode_fails _ _ _) as [[] t']; cbn [snd] in H.
    + now apply close_current_terminal_accounted, tty_warn_accounted.
    + now apply close_current_terminal_accounted.
Qed.

Lemma tty_calls_accounted calls :
  forall t, tty_accounted t -> tty_accounted (tty_calls calls t).
Proof.
  unfold tty_calls.
  induction calls as [|c calls IH]; intros t H; [assumption|].
  cbn [fold_left]. now apply IH, tty_call_accounted.
Qed.

Lemma tty_calls_app a b t :
  tty_calls (a ++ b) t = tty_calls b (tty_calls a t).
Proof. apply fold_left_app. Qed.

(** X16.  The console is held through one descriptor.  Whatever the
    kernel answers, over any series of prepare and reset calls every
    [close] and every [ioctl] is made on the descriptor that is open at
    that moment, /dev/tty0 is never opened while a descriptor from an
    earlier open is still held, and what remains open at the end is
    exactly the descriptor in [current_fd]; after a reset nothing remains
    open. *)
Theorem console_descriptor_is_accounted calls :
  let t := tty_calls calls tty_boot in
  tty_ledger [] (tty_log t)
  = Some (if current_fd t <? 0 then [] else [current_fd t]) /\
  forall result,
    let t' := tty_calls (calls ++ [TtyReset result]) tty_boot in
    current_fd t' < 0 /\ tty_ledger [] (tty_log t') = Some [].
Proof.
  assert (H : forall l, tty_accounted (tty_calls l tty_boot)).
  { intros l. now apply tty_calls_accounted. }
  split; [apply H|].
  intros result t'.
  assert (Hneg : current_fd t' < 0).
  { subst t'. rewrite tty_calls_app. cbn [tty_calls fold_left tty_call].
    unfold ul_terminal_reset_current_terminal.
    destruct (kdsetmode_fails _ _ _) as [failed t1].
    set (t2 := if failed then _ else _).
    unfold close_current_terminal.
    destruct (Z.ltb_spec (current_fd t2) 0); [assumption|cbn; lia]. }
  split; [assumption|].
  pose proof (H (calls ++ [TtyReset result])%list) as Ht.
  unfold tty_accounted, tty_held in Ht. fold t' in Ht.
  destruct (Z.ltb_spec (current_fd t') 0); [assumption|lia].
Qed.

(** ** The SSH button *)


Lemma toggle_ssh_consistent dropbear_enabled script_present u :
  ssh_consistent u ->
  ssh_consistent (toggle_ssh_btn_clicked_cb dropbear_enabled script_present u).
Proof.
  destruct u as [c label l]. unfold ssh_consistent.
  cbn [ssh_btn_label ip_label_container ssh_log].
  intros (Hlabel & Hshown & Hcount).
  unfold toggle_ssh_btn_clicked_cb.
  destruct dropbear_enabled, script_present;
    cbn [ssh_btn_label ip_label_container ssh_log]; auto.
  - repeat split; auto.
    + destruct c; discriminate.
    + rewrite filter_app, length_app, Hcount. destruct c; cbn; lia.
  - destruct c as [hidden|]; cbn [ssh_btn_label ip_label_container ssh_log];
      repeat split; auto;
      rewrite ?filter_app, ?length_app, Hcount; cbn; lia.
Qed.

Lemma ssh_clicks_consistent clicks :
  forall u, ssh_consistent u -> ssh_consistent (ssh_clicks clicks u).
Proof.
  unfold ssh_clicks.
  induction clicks as [|c clicks IH]; intros u H; [assumption|].
  cbn [fold_left]. now apply IH, toggle_ssh_consistent.
Qed.

(** X17.  The SSH button over any series of clicks, whatever the two
    [stat] calls answer: the IP address label is created at most once
    (later clicks only hide and show it), it is visible only while the
    button reads "Disable SSH", and the button never reads anything but
    "Enable SSH" or "Disable SSH". *)
Theorem ssh_button_stays_consistent dropbear_enabled clicks :
  let u := ssh_clicks clicks (ssh_boot dropbear_enabled) in
  (ssh_btn_label u = "Enable SSH" \/ ssh_btn_label u = "Disable SSH") /\
  (ip_label_container u = Some false -> ssh_btn_label u = "Disable SSH") /\
  (List.length (filter is_ip_label_creation (ssh_log u)) <= 1)%nat /\
  (ip_label_container u = None <->
   filter is_ip_label_creation (ssh_log u) = []).
Proof.
  intros u.
  assert (H : ssh_consistent u).
  { apply ssh_clicks_consistent. unfold ssh_consistent, ssh_boot.
    cbn [ssh_btn_label ip_label_container ssh_log filter List.length].
    destruct dropbear_enabled; repeat split; auto; discriminate. }
  destruct H as (Hlabel & Hshown & Hcount).
  repeat split; auto.
  - rewrite Hcount. destruct (ip_label_container u); lia.
  - intros E. rewrite E in Hcount.
    now destruct (filter is_ip_label_creation (ssh_log u)).
  - intros E. rewrite E in Hcount.
    destruct (ip_label_container u); [discriminate|reflexivity].
Qed.

(** X18.  Without /scripts/enable-ssh.sh the button does nothing: no
    command is run, the label keeps its text and the IP address label its
    visibility, however often the button is clicked and whether or not
    /tmp/dropbear-enabled exists. *)
Theorem ssh_button_without_script clicks u :
  Forall (fun click => snd click = false) clicks ->
  ssh_clicks clicks u = u.
Proof.
  unfold ssh_clicks. intros H. revert u.
  induction H as [|[enabled script] clicks Hs _ IH]; intros u; [reflexivity|].
  cbn [fold_left fst snd] in *. subst script.
  unfold toggle_ssh_btn_clicked_cb at 2. destruct enabled; apply IH.
Qed.

Lemma ssh_button_without_script_witness :
  ssh_clicks [(true, false); (false, false)] (ssh_boot true) = ssh_boot true.
Proof.
  apply (ssh_button_without_script [(true, false); (false, false)]
           (ssh_boot true)).
  repeat constructor.
Defined.

(** ** More about the slot resolver and the fallback *)

Lemma read_line_full s :
  forall k tail,
    no_newline s = true -> String.length s = k ->
    read_line k (s ++ tail) = s.
Proof.
  unfold no_newline.
  induction s as [|c s IH]; intros k tail Hs Hk.
  - cbn in Hk. subst k. reflexivity.
  - cbn in Hs, Hk. apply andb_prop in Hs as [Hc Hs].
    apply negb_true_iff in Hc.
    destruct k as [|k]; [discriminate|]. cbn [append read_line].
    rewrite Hc. f_equal. apply IH; [assumption | lia].
Qed.

Lemma read_line_newline s :
  forall k tail,
    no_newline s = true -> (String.length s < k)%nat ->
    read_line k (s ++ String newline tail) = s ++ String newline EmptyString.
Proof.
  unfold no_newline.
  induction s as [|c s IH]; intros k tail Hs Hk.
  - destruct k as [|k]; [cbn in Hk; lia|]. reflexivity.
  - cbn in Hs, Hk. apply andb_prop in Hs as [Hc Hs].
    apply negb_true_iff in Hc.
    destruct k as [|k]; [lia|]. cbn [append read_line].
    rewrite Hc. f_equal. apply IH; [assumption | lia].
Qed.

Lemma get_slot_suffix_line w line :
  cmdline_line w = Some line ->
  get_slot_suffix w
  = match strstr line slot_key with
    | Some token =>
        if malloc_ok w
        then Some (strncpy 2 (advance (strlen slot_key) token))
        else None
    | None => None
    end.
Proof.
  unfold cmdline_line, get_slot_suffix.
  destruct (proc_cmdline w) as [cmdline|]; [|discriminate].
  now intros ->.
Qed.

(** X13.  [get_slot_suffix] looks at one [fgets] of /proc/cmdline: the
    first line, and no more than its first 1023 characters.  What follows
    the first newline, or the 1023rd character of a longer line, has no
    influence on the suffix; a key that begins there is not found. *)
Theorem slot_suffix_reads_one_buffer w head tail :
  no_newline head = true ->
  (String.length head = 1023%nat ->
   get_slot_suffix (with_cmdline w (Some (head ++ tail)))
   = get_slot_suffix (with_cmdline w (Some head))) /\
  ((String.length head < 1023)%nat ->
   get_slot_suffix (with_cmdline w (Some (head ++ String newline tail)))
   = get_slot_suffix (with_cmdline w (Some (head ++ nl)))).
Proof.
  intros Hhead. split; intros Hlen.
  - assert (Hne : exists c s, head = String c s).
    { destruct head; [discriminate|eauto]. }
    destruct Hne as (c & s & Hne).
    rewrite (get_slot_suffix_line _ head), (get_slot_suffix_line _ head);
      [reflexivity| |].
    + unfold cmdline_line, with_cmdline; cbn [proc_cmdline].
      rewrite Hne, fgets_nonempty by lia. rewrite <- Hne.
      rewrite <- (append_nil head) at 1.
      f_equal. now apply read_line_full.
    + unfold cmdline_line, with_cmdline; cbn [proc_cmdline].
      rewrite Hne. cbn [append]. rewrite fgets_nonempty by lia.
      change (String c (s ++ tail)) with (String c s ++ tail).
      rewrite <- Hne. f_equal. now apply read_line_full.
  - assert (Hne : forall t, exists c s,
                    head ++ String newline t = String c s).
    { intros t. destruct head; cbn; eauto. }
    rewrite (get_slot_suffix_line _ (head ++ nl)),
      (get_slot_suffix_line _ (head ++ nl)); [reflexivity| |].
    + unfold cmdline_line, with_cmdline; cbn [proc_cmdline].
      unfold nl. destruct (Hne EmptyString) as (c & s & E).
      rewrite E, fgets_nonempty by lia. rewrite <- E.
      f_equal. now apply read_line_newline.
    + unfold cmdline_line, with_cmdline; cbn [proc_cmdline].
      destruct (Hne tail) as (c & s & E).
      rewrite E, fgets_nonempty by lia. rewrite <- E.
      f_equal. now apply read_line_newline.
Qed.

Lemma slot_suffix_reads_one_buffer_witness :
  (String.length "quiet androidboot.slot_suffix=_a" = 1023%nat ->
   get_slot_suffix
     (with_cmdline world_single
        (Some ("quiet androidboot.slot_suffix=_a"
               ++ " androidboot.slot_suffix=_b")))
   = get_slot_suffix
       (with_cmdline world_single (Some "quiet androidboot.slot_suffix=_a")))
  /\
  ((String.length "quiet androidboot.slot_suffix=_a" < 1023)%nat ->
   get_slot_suffix
     (with_cmdline world_single
        (Some ("quiet androidboot.slot_suffix=_a"
               ++ String newline " androidboot.slot_suffix=_b")))
   = get_slot_suffix
       (with_cmdline world_single
          (Some ("quiet androidboot.slot_suffix=_a" ++ nl)))).
Proof.
  apply (slot_suffix_reads_one_buffer world_single
           "quiet androidboot.slot_suffix=_a" " androidboot.slot_suffix=_b").
  reflexivity.
Defined.


(** A key that starts within the last characters of the buffer is cut
    off, and one behind the buffer is never read. *)
Example slot_key_beyond_buffer :
  get_slot_suffix
    (sample_world (Some (padding 1000 "x" ++ slot_key ++ "_a" ++ nl)))
  = None /\
  get_slot_suffix
    (sample_world (Some (padding 999 "x" ++ slot_key ++ nl)))
  = Some EmptyString /\
  get_slot_suffix
    (sample_world (Some (padding 997 "x" ++ slot_key ++ "_a" ++ nl)))
  = Some "_a".
Proof. vm_compute. auto. Qed.

(** ** More about the reset run *)

Lemma filter_app_nil {A} (f : A -> bool) a b :
  filter f a = [] -> filter f (a ++ b) = filter f b.
Proof. intros H. now rewrite filter_app, H. Qed.

Lemma in_fallback_no_cache_drop w sfx p v e :
  In e (fallback_events w sfx p v) -> is_cache_drop e = false.
Proof.
  intros H. apply in_fallback_events in H.
  destruct H as [[text ->]|(_ & H)]; [reflexivity|].
  decompose [or and ex] H; subst; reflexivity.
Qed.

Lemma in_flash_system_no_cache_drop w img part sfx v e :
  In e (flash_system_events w img part sfx v) -> is_cache_drop e = false.
Proof.
  intros H. apply in_flash_system_events in H.
  destruct H as [(_ & ->)|[text ->]]; reflexivity.
Qed.

Lemma in_activation_no_cache_drop w e :
  In e (activation_events w) -> is_cache_drop e = false.
Proof. intros H. apply in_activation_events in H as (_ & ->). reflexivity. Qed.

Lemma cache_drops_of_cache_events w :
  filter is_cache_drop (cache_events w) = cache_events w /\
  besides_cache_drops (cache_events w) = [].
Proof. unfold cache_events. now destruct (cache_ctl w). Qed.

Lemma cache_events_length w :
  List.length (cache_events w)
  = match cache_ctl w with CacheWritten => 1%nat | _ => 0%nat end.
Proof. unfold cache_events. now destruct (cache_ctl w). Qed.

Lemma besides_cache_drops_app a b :
  besides_cache_drops (a ++ b)
  = (besides_cache_drops a ++ besides_cache_drops b)%list.
Proof. apply filter_app. Qed.

Lemma besides_cache_drops_id l :
  (forall e, In e l -> is_cache_drop e = false) -> besides_cache_drops l = l.
Proof.
  induction l as [|x l IH]; intros H; [reflexivity|].
  unfold besides_cache_drops in *. cbn [filter].
  rewrite (H x) by now left. cbn [negb]. f_equal. apply IH.
  intros e He. apply H. now right.
Qed.

Lemma cache_drops_activation w :
  filter is_cache_drop (activation_events w) = [].
Proof. apply filter_none, in_activation_no_cache_drop. Qed.

Lemma cache_drops_flash_system w img part sfx v :
  filter is_cache_drop (flash_system_events w img part sfx v) = [].
Proof. apply filter_none, in_flash_system_no_cache_drop. Qed.

Lemma cache_drops_fallback w sfx p v :
  filter is_cache_drop (fallback_events w sfx p v) = [].
Proof. apply filter_none, in_fallback_no_cache_drop. Qed.

(** X6.  Dropping the page cache is best effort.  Whether the write to
    /proc/sys/vm/drop_caches can be made changes neither the result of
    [factory_reset], nor the mounts it leaves, nor any other call of the
    run; when it can be made it is made once at the start and, in a run
    that returns 0, once more at the end. *)
Theorem cache_drop_is_best_effort w c :
  let w' := with_cache w c in
  reset_result w' = reset_result w /\
  mtab (snd (reset_run w')) = mtab (snd (reset_run w)) /\
  besides_cache_drops (reset_trace w') = besides_cache_drops (reset_trace w) /\
  List.length (filter is_cache_drop (reset_trace w))
  = match cache_ctl w with
    | CacheWritten => if reset_result w =? 0 then 2%nat else 1%nat
    | _ => 0%nat
    end.
Proof.
  intros w'. subst w'.
  unfold reset_result, reset_trace. rewrite !reset_run_summary.
  unfold reset_summary.
  change (slot_suffix_or_default (with_cache w c))
    with (slot_suffix_or_default w).
  change (paths_after_activation (with_cache w c))
    with (paths_after_activation w).
  change (ext4_on (with_cache w c)) with (ext4_on w).
  change (sh_status (with_cache w c)) with (sh_status w).
  change (activation_events (with_cache w c)) with (activation_events w).
  change (flash_system_events (with_cache w c)) with (flash_system_events w).
  change (fallback_events (with_cache w c)) with (fallback_events w).
  change (fallback_fails (with_cache w c)) with (fallback_fails w).
  repeat match goal with
         | |- context [match ?x with _ => _ end] => reset_scrutinee x
         end;
    cbn [fst snd trace mtab Z.eqb].
  all: split; [reflexivity|]; split; [reflexivity|].
  all: split;
    [ rewrite !besides_cache_drops_app;
      rewrite !(proj2 (cache_drops_of_cache_events _)); reflexivity
    | rewrite !filter_app, ?cache_drops_activation, ?cache_drops_flash_system,
        ?cache_drops_fallback, !(proj1 (cache_drops_of_cache_events _));
      cbn [filter is_cache_drop app]; rewrite ?app_nil_r, ?length_app,
        cache_events_length; destruct (cache_ctl w); reflexivity ].
Qed.

(** Every shell command of a run, by where the run makes it. *)
Lemma reset_command_inv w cmd status :
  In (ESystem cmd status) (reset_trace w) ->
  status = sh_status w cmd /\
  (cmd = dmsetup_cmd /\ needs_activation (dev_nodes w) = true \/
   (exists dev name v archive,
      slot_choice (paths_after_activation w) = Some (dev, name) /\
      ext4_on w dev = Some v /\
      userdata_archive v = Some archive /\
      cmd = snprintf 1024 (tar_cmd archive)) \/
   (exists dev name v i,
      slot_choice (paths_after_activation w) = Some (dev, name) /\
      ext4_on w dev = Some v /\
      mem (image_name i) (vol_files v) = true /\
      cmd = snprintf 1024 (dd_system (image_name i) (image_part i)
                             (slot_suffix_or_default w))) \/
   (exists dev name v,
      slot_choice (paths_after_activation w) = Some (dev, name) /\
      ext4_on w dev = Some v /\
      fallback_entered (paths_after_activation w) v = true /\
      fallback_cmd w (slot_suffix_or_default w) cmd)).
Proof.
  intros Hin.
  reset_cases w; in_trace; try discriminate;
    try match goal with
    | H : ESystem _ _ = ESystem _ _ |- _ => injection H as ? ?; subst
    end.
  all: try (split; [reflexivity|]).
  all: try (left; split; [reflexivity|assumption]).
  all: try (right; left; exists dev, name, v, archive; auto; fail).
  all: try (right; right; left; exists dev, name, v, Boot;
            cbn [image_name image_part]; auto; fail).
  all: try (right; right; left; exists dev, name, v, Dtbo;
            cbn [image_name image_part]; auto; fail).
  all: try match goal with
       | H : exists _, ESystem _ _ = EPrint _ |- _ =>
           destruct H; discriminate
       end.
  all: apply in_fallback_events in Hin;
    destruct Hin as [[text ?]|(Hent & Hin)]; [discriminate|].
  all: decompose [or and ex] Hin; subst; try discriminate.
  all: match goal with
       | H : ESystem _ _ = ESystem _ _ |- _ => injection H as ? ?; subst
       end.
  all: split; [reflexivity|].
  all: do 3 right; exists dev, name, v; repeat split; auto.
  all: eexists _, _, _; eauto.
Qed.

(** X7.  A run executes no shell command of its own making: each one is
    the activation of the dynamic partitions, one of the two userdata
    pipelines, a dd of boot.img or dtbo.img from the system slot, or a dd
    of the file the fallback scan found; the dd commands all write to the
    partitions named with the one suffix resolved at the start of the run.
    The status logged for a command is the one it exited with. *)
Theorem reset_runs_known_commands w cmd status :
  In (ESystem cmd status) (reset_trace w) ->
  status = sh_status w cmd /\
  (cmd = dmsetup_cmd \/ In cmd userdata_cmds \/
   system_slot_cmd (slot_suffix_or_default w) cmd \/
   fallback_cmd w (slot_suffix_or_default w) cmd).
Proof.
  intros Hin. destruct (reset_command_inv w cmd status Hin) as [Hst Hcmd].
  split; [assumption|].
  destruct Hcmd as [[-> _]|[(dev & name & v & archive & _ & _ & Ha & ->)
                   |[(dev & name & v & i & _ & _ & _ & ->)
                    |(dev & name & v & _ & _ & _ & Hf)]]].
  - now left.
  - right; left. now apply userdata_archive_cmd with (v := v).
  - right; right; left. now exists i.
  - now do 3 right.
Qed.

Lemma reset_runs_known_commands_witness :
  0 = sh_status world_dynamic dmsetup_cmd /\
  (dmsetup_cmd = dmsetup_cmd \/ In dmsetup_cmd userdata_cmds \/
   system_slot_cmd (slot_suffix_or_default world_dynamic) dmsetup_cmd \/
   fallback_cmd world_dynamic (slot_suffix_or_default world_dynamic)
     dmsetup_cmd).
Proof.
  apply (reset_runs_known_commands world_dynamic dmsetup_cmd 0).
  vm_compute. tauto.
Defined.


Lemma in_flash_system_off_rootfs w img part sfx v e :
  In e (flash_system_events w img part sfx v) -> on_rootfs_mnt e = false.
Proof.
  intros H. apply in_flash_system_events in H.
  destruct H as [(_ & ->)|[text ->]]; reflexivity.
Qed.


Lemma no_image_write_prefix (a b pre post : list Event) e :
  forallb (fun x => negb (is_image_write x)) a = true ->
  (a ++ b = pre ++ e :: post)%list -> is_image_write e = true ->
  exists pre', pre = (a ++ pre')%list.
Proof.
  revert pre. induction a as [|x a IH]; intros pre Ha Heq He.
  - now exists pre.
  - cbn [forallb] in Ha. apply andb_prop in Ha as [Hx Ha].
    destruct pre as [|y pre]; cbn [app] in Heq.
    + injection Heq as -> _. now rewrite He in Hx.
    + injection Heq as -> Heq.
      destruct (IH pre Ha Heq He) as [pre' ->]. now exists pre'.
Qed.

(** X9.  Order of the pipeline: in the log of any run, every write to a
    boot or dtbo partition comes after the successful mount of the system
    slot and after the userdata pipeline has exited with status 0. *)
Theorem image_writes_follow_userdata w pre e post :
  reset_trace w = (pre ++ e :: post)%list ->
  is_image_write e = true ->
  userdata_step 0 pre /\ exists dev, In (EMount dev system_mnt 0) pre.
Proof.
  intros Heq He.
  assert (Hnone : forall l,
             forallb (fun x => negb (is_image_write x)) l = true ->
             reset_trace w <> l).
  { intros l Hl E. rewrite E in Heq.
    rewrite Heq, forallb_app in Hl. cbn [forallb] in Hl.
    rewrite He in Hl. cbn in Hl. now rewrite andb_false_r in Hl. }
  assert (Hpre : forall dev v archive b,
             userdata_archive v = Some archive ->
             (sh_status w (snprintf 1024 (tar_cmd archive)) =? 0) = true ->
             reset_trace w
             = ((cache_events w ++ activation_events w
                 ++ [EMkdir system_mnt; EMount dev system_mnt 0;
                     ESystem (snprintf 1024 (tar_cmd archive))
                       (sh_status w (snprintf 1024 (tar_cmd archive)))])
                ++ b)%list ->
             userdata_step 0 pre /\
             exists dev, In (EMount dev system_mnt 0) pre).
  { intros dev v archive b Ha Hs E. rewrite E in Heq.
    apply no_image_write_prefix in Heq as [pre' ->]; [|clear Heq|exact He].
    - apply Z.eqb_eq in Hs. rewrite Hs. split.
      + exists (snprintf 1024 (tar_cmd archive)).
        split; [now apply userdata_archive_cmd with (v := v)|].
        rewrite !in_app_iff. cbn [In]. tauto.
      + exists dev. rewrite !in_app_iff. cbn [In]. tauto.
    - rewrite !forallb_app, forallb_cache_events, forallb_activation_events
        by reflexivity.
      cbn [forallb is_image_write negb andb].
      now rewrite (tar_is_no_image_write _ (userdata_archive_cmd _ _ Ha)). }
  revert Hnone Hpre. clear Heq.
  unfold reset_trace. rewrite reset_run_summary. unfold reset_summary.
  intros Hnone Hpre.
  repeat match goal with
         | H : context [match ?x with _ => _ end] |- _ => reset_scrutinee x
         end;
    cbn [fst snd trace] in *.
  all: try (eapply Hpre; [eassumption..|];
            rewrite <- !app_assoc; cbn [app]; reflexivity).
  all: exfalso; eapply Hnone; [|reflexivity].
  all: rewrite !forallb_app, forallb_cache_events, forallb_activation_events
    by reflexivity.
  all: cbn [forallb is_image_write negb andb]; try reflexivity.
  all: now rewrite (tar_is_no_image_write _ (userdata_archive_cmd _ _ Archive)).
Qed.


Lemma image_writes_follow_userdata_witness :
  userdata_step 0 (firstn 6 (reset_trace world_dynamic)) /\
  exists dev, In (EMount dev system_mnt 0) (firstn 6 (reset_trace world_dynamic)).
Proof.
  apply (image_writes_follow_userdata world_dynamic
           (firstn 6 (reset_trace world_dynamic))
           (ESystem (snprintf 1024 (dd_system "dtbo.img" "dtbo" "_b")) 0)
           (skipn 7 (reset_trace world_dynamic))).
  - vm_compute. reflexivity.
  - reflexivity.
Defined.

(** ** Which exit statuses matter *)

Lemma commands_app a b : commands (a ++ b) = (commands a ++ commands b)%list.
Proof. apply flat_map_app. Qed.

Lemma mount_calls_app a b :
  mount_calls (a ++ b) = (mount_calls a ++ mount_calls b)%list.
Proof. apply filter_app. Qed.

Lemma flash_system_events_any_status w cmd status img part sfx v :
  commands (flash_system_events (with_status w cmd status) img part sfx v)
  = commands (flash_system_events w img part sfx v) /\
  mount_calls (flash_system_events (with_status w cmd status) img part sfx v)
  = mount_calls (flash_system_events w img part sfx v).
Proof.
  unfold flash_system_events. now destruct (mem img (vol_files v)).
Qed.

Lemma flash_rootfs_events_any_status w cmd status img_file img part sfx :
  commands (flash_rootfs_events (with_status w cmd status) img_file img part sfx)
  = commands (flash_rootfs_events w img_file img part sfx) /\
  mount_calls
    (flash_rootfs_events (with_status w cmd status) img_file img part sfx)
  = mount_calls (flash_rootfs_events w img_file img part sfx).
Proof. unfold flash_rootfs_events. now destruct img_file. Qed.

Lemma fallback_events_any_status w cmd status sfx p v :
  commands (fallback_events (with_status w cmd status) sfx p v)
  = commands (fallback_events w sfx p v) /\
  mount_calls (fallback_events (with_status w cmd status) sfx p v)
  = mount_calls (fallback_events w sfx p v).
Proof.
  unfold fallback_events.
  change (ext4_on (with_status w cmd status)) with (ext4_on w).
  destruct (image_missing v); [|now split].
  destruct (mem rootfs_dev p); [|now split].
  destruct (ext4_on w rootfs_dev) as [vr|]; [|now split].
  destruct (vol_boot vr) as [entries|]; [|now split].
  cbn [commands mount_calls flat_map filter no_mount negb app].
  fold commands. fold mount_calls.
  rewrite !commands_app, !mount_calls_app.
  rewrite !(proj1 (flash_rootfs_events_any_status w cmd status _ _ _ _)).
  rewrite !(proj2 (flash_rootfs_events_any_status w cmd status _ _ _ _)).
  now split.
Qed.

Lemma activation_events_any_status w cmd status :
  commands (activation_events (with_status w cmd status))
  = commands (activation_events w) /\
  mount_calls (activation_events (with_status w cmd status))
  = mount_calls (activation_events w).
Proof.
  unfold activation_events.
  change (dev_nodes (with_status w cmd status)) with (dev_nodes w).
  now destruct (needs_activation (dev_nodes w)).
Qed.

(** X10.  Only the userdata pipeline can fail a run through its exit
    status.  Changing the status any other command exits with (the
    activation tool, any dd onto boot or dtbo) changes neither the result
    of [factory_reset], nor the mounts it leaves, nor the commands it
    runs and their order, nor its mount and unmount calls: a failed image
    write is logged and the run goes on. *)
Theorem only_userdata_status_decides w cmd status :
  ~ In cmd userdata_cmds ->
  let w' := with_status w cmd status in
  reset_result w' = reset_result w /\
  mtab (snd (reset_run w')) = mtab (snd (reset_run w)) /\
  commands (reset_trace w') = commands (reset_trace w) /\
  mount_calls (reset_trace w') = mount_calls (reset_trace w).
Proof.
  intros Hcmd w'. subst w'.
  assert (Htar : forall v archive,
             userdata_archive v = Some archive ->
             sh_status (with_status w cmd status) (snprintf 1024 (tar_cmd archive))
             = sh_status w (snprintf 1024 (tar_cmd archive))).
  { intros v archive Ha. unfold with_status. cbn [sh_status].
    destruct (String.eqb_spec (snprintf 1024 (tar_cmd archive)) cmd) as [E|];
      [|reflexivity].
    elim Hcmd. rewrite <- E. now apply userdata_archive_cmd with (v := v). }
  unfold reset_result, reset_trace. rewrite !reset_run_summary.
  unfold reset_summary.
  change (slot_suffix_or_default (with_status w cmd status))
    with (slot_suffix_or_default w).
  change (paths_after_activation (with_status w cmd status))
    with (paths_after_activation w).
  change (ext4_on (with_status w cmd status)) with (ext4_on w).
  change (cache_events (with_status w cmd status)) with (cache_events w).
  change (fallback_fails (with_status w cmd status)) with (fallback_fails w).
  destruct (slot_choice (paths_after_activation w)) as [[dev name]|].
  2:{ cbn [fst snd trace mtab]. rewrite !commands_app, !mount_calls_app.
      rewrite (proj1 (activation_events_any_status w cmd status)).
      rewrite (proj2 (activation_events_any_status w cmd status)).
      auto. }
  destruct (ext4_on w dev) as [v|].
  2:{ cbn [fst snd trace mtab]. rewrite !commands_app, !mount_calls_app.
      rewrite (proj1 (activation_events_any_status w cmd status)).
      rewrite (proj2 (activation_events_any_status w cmd status)).
      auto. }
  destruct (userdata_archive v) as [archive|] eqn:Arch.
  2:{ cbn [fst snd trace mtab]. rewrite !commands_app, !mount_calls_app.
      rewrite (proj1 (activation_events_any_status w cmd status)).
      rewrite (proj2 (activation_events_any_status w cmd status)).
      auto. }
  rewrite (Htar v archive Arch).
  destruct (sh_status w (snprintf 1024 (tar_cmd archive)) =? 0);
    [destruct (fallback_fails w (paths_after_activation w) v)|];
    cbn [fst snd trace mtab]; rewrite !commands_app, !mount_calls_app;
    rewrite ?(proj1 (activation_events_any_status w cmd status)),
      ?(proj2 (activation_events_any_status w cmd status)),
      ?(proj1 (flash_system_events_any_status w cmd status _ _ _ _)),
      ?(proj2 (flash_system_events_any_status w cmd status _ _ _ _)),
      ?(proj1 (fallback_events_any_status w cmd status _ _ _)),
      ?(proj2 (fallback_events_any_status w cmd status _ _ _));
    auto.
Qed.

Lemma only_userdata_status_decides_witness :
  let cmd := snprintf 1024 (dd_system "dtbo.img" "dtbo" "_b") in
  let w' := with_status world_dynamic cmd 1 in
  reset_result w' = reset_result world_dynamic /\
  mtab (snd (reset_run w')) = mtab (snd (reset_run world_dynamic)) /\
  commands (reset_trace w') = commands (reset_trace world_dynamic) /\
  mount_calls (reset_trace w') = mount_calls (reset_trace world_dynamic).
Proof.
  apply (only_userdata_status_decides world_dynamic
           (snprintf 1024 (dd_system "dtbo.img" "dtbo" "_b")) 1).
  intros [H|[H|[]]]; discriminate.
Defined.

(** X11.  Of the two userdata archives the plain one has priority.  On
    the mounted system slot, userdata.img.tar.gz is the archive extracted
    whenever it is there, and userdata-raw.img.tar.gz only when it is
    not; the other pipeline is not run in that run. *)
Theorem userdata_archive_priority w dev v :
  In (EMount dev system_mnt 0) (reset_trace w) ->
  ext4_on w dev = Some v ->
  let plain := snprintf 1024 (tar_cmd "/system_mnt/userdata.img.tar.gz") in
  let raw := snprintf 1024 (tar_cmd "/system_mnt/userdata-raw.img.tar.gz") in
  (mem "userdata.img.tar.gz" (vol_files v) = true ->
   In (ESystem plain (sh_status w plain)) (reset_trace w) /\
   forall status, ~ In (ESystem raw status) (reset_trace w)) /\
  (mem "userdata.img.tar.gz" (vol_files v) = false ->
   mem "userdata-raw.img.tar.gz" (vol_files v) = true ->
   In (ESystem raw (sh_status w raw)) (reset_trace w) /\
   forall status, ~ In (ESystem plain status) (reset_trace w)).
Proof.
  intros Hin Vol plain raw.
  destruct (system_mount_inv w dev Hin) as [name Slot].
  assert (Hrun : forall archive,
             userdata_archive v = Some archive ->
             In (ESystem (snprintf 1024 (tar_cmd archive))
                   (sh_status w (snprintf 1024 (tar_cmd archive))))
               (reset_trace w)).
  { intros archive Arch. unfold reset_trace. rewrite reset_run_summary.
    unfold reset_summary. rewrite Slot, Vol, Arch.
    destruct (sh_status w (snprintf 1024 (tar_cmd archive)) =? 0);
      [destruct (fallback_fails w (paths_after_activation w) v)|];
      cbn [fst snd trace]; rewrite !in_app_iff; cbn [In]; tauto. }
  assert (Hother : forall archive cmd status,
             userdata_archive v = Some archive ->
             In cmd userdata_cmds ->
             In (ESystem cmd status) (reset_trace w) ->
             cmd = snprintf 1024 (tar_cmd archive)).
  { intros archive cmd status Arch Hcmd Hc.
    destruct (reset_command_inv w cmd status Hc) as [_ H].
    destruct H as [[-> _]|[(dev' & name' & v' & archive' & Slot' & Vol' & Ha & ->)
                 |[(dev' & name' & v' & i & _ & _ & _ & ->)
                  |(dev' & name' & v' & _ & _ & _ & Hf)]]].
    - exfalso. exact (userdata_cmd_not_dmsetup _ Hcmd eq_refl).
    - rewrite Slot in Slot'. injection Slot' as <- <-.
      rewrite Vol in Vol'. injection Vol' as <-. congruence.
    - exfalso. exact (userdata_cmd_not_dd_system _ _ _ _ Hcmd eq_refl).
    - destruct Hf as (i & vr & entries & _ & _ & _ & ->).
      exfalso. exact (userdata_cmd_not_rootfs_cmd _ _ _ _ Hcmd eq_refl). }
  split.
  - intros Hplain.
    assert (Arch : userdata_archive v = Some "/system_mnt/userdata.img.tar.gz").
    { unfold userdata_archive. now rewrite Hplain. }
    split; [exact (Hrun _ Arch)|].
    intros status Hraw.
    pose proof (Hother _ raw status Arch ltac:(right; left; reflexivity) Hraw).
    discriminate.
  - intros Hplain Hraw.
    assert (Arch : userdata_archive v
                   = Some "/system_mnt/userdata-raw.img.tar.gz").
    { unfold userdata_archive. now rewrite Hplain, Hraw. }
    split; [exact (Hrun _ Arch)|].
    intros status Hp.
    pose proof (Hother _ plain status Arch ltac:(left; reflexivity) Hp).
    discriminate.
Qed.

Lemma userdata_archive_priority_witness :
  let plain := snprintf 1024 (tar_cmd "/system_mnt/userdata.img.tar.gz") in
  let raw := snprintf 1024 (tar_cmd "/system_mnt/userdata-raw.img.tar.gz") in
  (mem "userdata.img.tar.gz" (vol_files slot_volume) = true ->
   In (ESystem plain (sh_status world_dynamic plain))
     (reset_trace world_dynamic) /\
   forall status, ~ In (ESystem raw status) (reset_trace world_dynamic)) /\
  (mem "userdata.img.tar.gz" (vol_files slot_volume) = false ->
   mem "userdata-raw.img.tar.gz" (vol_files slot_volume) = true ->
   In (ESystem raw (sh_status world_dynamic raw)) (reset_trace world_dynamic)
   /\ forall status,
        ~ In (ESystem plain status) (reset_trace world_dynamic)).
Proof.
  apply (userdata_archive_priority world_dynamic system_b_dev slot_volume).
  - vm_compute. tauto.
  - reflexivity.
Defined.

Lemma scan_boot_dir_none name entries :
  first_match name entries = None -> scan_boot_dir name entries = EmptyString.
Proof.
  unfold first_match.
  induction entries as [|d_name rest IH]; cbn [find scan_boot_dir];
    [reflexivity|].
  rewrite strncmp_eq_prefix.
  destruct (String.prefix name d_name); [discriminate | exact IH].
Qed.

(** X12.  A boot directory without images is no error.  When the
    fallback is entered and no entry of /rootfs_mnt/boot begins with
    boot.img or with dtbo.img, the run reports both as not found, flashes
    nothing from the rootfs volume, unmounts both volumes and still
    returns 0. *)
Theorem fallback_without_images_succeeds (w : World)
    (dev : string) (v vr : Volume) (entries : list string)
    (Hslot : In (EMount dev system_mnt 0) (reset_trace w))
    (Hvol : ext4_on w dev = Some v)
    (Hdata : userdata_step 0 (reset_trace w))
    (Hmissing : mem "boot.img" (vol_files v) = false \/
                mem "dtbo.img" (vol_files v) = false)
    (Hnode : In rootfs_dev (dev_nodes w))
    (Hrootfs : ext4_on w rootfs_dev = Some vr)
    (Hboot : vol_boot vr = Some entries)
    (Hnoboot : first_match "boot.img" entries = None)
    (Hnodtbo : first_match "dtbo.img" entries = None) :
  reset_result w = 0 /\
  mtab (snd (reset_run w)) = [] /\
  In (EPrint ("Failed to find boot image in the rootfs" ++ nl))
    (reset_trace w) /\
  In (EPrint ("Failed to find dtbo image in the rootfs" ++ nl))
    (reset_trace w) /\
  forall cmd status,
    In (ESystem cmd status) (reset_trace w) ->
    cmd = dmsetup_cmd \/ In cmd userdata_cmds \/
    system_slot_cmd (slot_suffix_or_default w) cmd.
Proof.
  assert (Hcmds : forall cmd status,
             In (ESystem cmd status) (reset_trace w) ->
             cmd = dmsetup_cmd \/ In cmd userdata_cmds \/
             system_slot_cmd (slot_suffix_or_default w) cmd).
  { intros cmd status Hcmd.
    destruct (reset_command_inv w cmd status Hcmd) as [_ Hc].
    destruct Hc as [[-> _]|[(dev' & name' & v' & archive & _ & _ & Ha & ->)
                   |[(dev' & name' & v' & i & _ & _ & _ & ->)
                    |(dev' & name' & v' & _ & _ & _ & Hf)]]].
    - now left.
    - right; left. now apply userdata_archive_cmd with (v := v').
    - right; right. now exists i.
    - exfalso. destruct Hf as (i & vr' & entries' & Hr & Hb & Hscan & _).
      rewrite Hrootfs in Hr. injection Hr as <-.
      rewrite Hboot in Hb. injection Hb as <-.
      apply Hscan. destruct i; now apply scan_boot_dir_none. }
  destruct (system_mount_inv w dev Hslot) as [name Slot].
  destruct (userdata_step_inv w 0 Hdata)
    as (dev' & name' & v' & archive & Slot' & Vol' & Arch & St).
  rewrite Slot in Slot'. injection Slot' as <- <-.
  rewrite Hvol in Vol'. injection Vol' as <-.
  clear Hslot Hdata.
  assert (Missing : image_missing v = true).
  { unfold image_missing. destruct Hmissing as [-> | ->]; cbn;
      auto using orb_true_r. }
  assert (Node : mem rootfs_dev (paths_after_activation w) = true)
    by now apply paths_after_activation_keep.
  assert (Fails : fallback_fails w (paths_after_activation w) v = false).
  { unfold fallback_fails. rewrite Hrootfs, Hboot. apply andb_false_r. }
  revert Hcmds.
  unfold reset_result, reset_trace. rewrite reset_run_summary.
  unfold reset_summary. rewrite Slot, Hvol, Arch, <- St, Fails.
  cbn [Z.eqb fst snd trace mtab].
  unfold fallback_events. rewrite Missing, Node, Hrootfs, Hboot.
  rewrite (scan_boot_dir_none _ _ Hnoboot), (scan_boot_dir_none _ _ Hnodtbo).
  cbn [flash_rootfs_events if_set].
  intros Hcmds. repeat split; auto.
  all: rewrite !in_app_iff; cbn [In]; rewrite ?in_app_iff; cbn [In]; tauto.
Qed.

Lemma fallback_without_images_succeeds_witness :
  reset_result world_no_images = 0 /\
  mtab (snd (reset_run world_no_images)) = [] /\
  In (EPrint ("Failed to find boot image in the rootfs" ++ nl))
    (reset_trace world_no_images) /\
  In (EPrint ("Failed to find dtbo image in the rootfs" ++ nl))
    (reset_trace world_no_images) /\
  forall cmd status,
    In (ESystem cmd status) (reset_trace world_no_images) ->
    cmd = dmsetup_cmd \/ In cmd userdata_cmds \/
    system_slot_cmd (slot_suffix_or_default world_no_images) cmd.
Proof.
  apply (fallback_without_images_succeeds world_no_images system_a_dev
           {| vol_files := ["userdata-raw.img.tar.gz"]; vol_boot := None |}
           {| vol_files := []; vol_boot := Some ["."; ".."; "vmlinuz"] |}
           ["."; ".."; "vmlinuz"]).
  - vm_compute. tauto.
  - reflexivity.
  - exists (snprintf 1024 (tar_cmd "/system_mnt/userdata-raw.img.tar.gz")).
    split; [right; left; reflexivity|]. vm_compute. tauto.
  - left. reflexivity.
  - vm_compute. tauto.
  - reflexivity.
  - reflexivity.
  - reflexivity.
  - reflexivity.
Defined.

(** ** More about the password gate *)

Lemma submit_cons w password rest s :
  run (submit w (password :: rest)) s
  = run (submit w rest) (snd (run (check_password w password) s)).
Proof.
  cbn [submit]. unfold run at 1 2, bind, call.
  now destruct (run (check_password w password) s) as [[] s'].
Qed.


Lemma wrong_passwords_count w passwords :
  Forall (fun password => unlock_helper w password = 2) passwords ->
  forall p tab t n,
    0 <= n -> n + Z.of_nat (List.length passwords) < 2 ^ 31 ->
    let s' := snd (run (submit w passwords) (mkSys p tab t n)) in
    attempt_count s' = n + Z.of_nat (List.length passwords) /\
    Z.of_nat (List.length (filter is_lockout_box (trace s')))
    = Z.of_nat (List.length (filter is_lockout_box t))
      + Z.max 0 (n + Z.of_nat (List.length passwords) - 2) - Z.max 0 (n - 2) /\
    filter is_timer (trace s') = filter is_timer t.
Proof.
  induction 1 as [|password rest Hp _ IH]; intros p tab t n Hn Hlen.
  - cbn. repeat split; lia.
  - cbn zeta. rewrite submit_cons, check_password_run, Hp.
    change (2 =? EXIT_SUCCESS) with false. change (2 =? 2) with true.
    cbv iota. cbn [snd].
    cbn [List.length] in Hlen |- *. rewrite Nat2Z.inj_succ in Hlen |- *.
    rewrite wrap_int_id by lia.
    set (extra := if n + 1 >=? 3 then [lockout_box] else []).
    destruct (IH p tab (t ++ EUnlock password 2 :: extra)%list (n + 1)
                ltac:(lia) ltac:(lia)) as (Hc & Hb & Ht).
    cbn zeta in Hc, Hb, Ht. rewrite Hc, Hb, Ht.
    rewrite !filter_app. cbn [filter is_lockout_box is_timer].
    assert (Htimer : filter is_timer extra = []).
    { subst extra. now destruct (n + 1 >=? 3). }
    assert (Hbox : Z.of_nat (List.length (filter is_lockout_box extra))
                   = if n + 1 >=? 3 then 1 else 0).
    { subst extra. now destruct (n + 1 >=? 3). }
    rewrite length_app, Nat2Z.inj_add, Hbox, Htimer, app_nil_r.
    destruct (Z.geb_spec (n + 1) 3); repeat split; lia.
Qed.

(** X14.  Wrong passwords add up.  After any number of submissions that
    the unlock helper all answers with 2, the counter holds their number,
    no reset has been scheduled, and the box "Maximum password attempt
    reached." has been created once for the third wrong password and once
    more for each later one. *)
Theorem wrong_passwords_are_counted w passwords :
  Forall (fun password => unlock_helper w password = 2) passwords ->
  Z.of_nat (List.length passwords) < 2 ^ 31 ->
  let s := gate_run w passwords in
  attempt_count s = Z.of_nat (List.length passwords) /\
  List.length (filter is_lockout_box (trace s))
  = (List.length passwords - 2)%nat /\
  filter is_timer (trace s) = [].
Proof.
  intros Hwrong Hlen s. subst s. unfold gate_run, boot_state.
  destruct (wrong_passwords_count w passwords Hwrong (dev_nodes w) [] [] 0)
    as (Hc & Hb & Ht); [lia | lia |].
  cbn zeta in Hc, Hb, Ht. rewrite Hc, Ht. cbn [filter List.length] in *.
  repeat split; lia.
Qed.

Lemma wrong_passwords_are_counted_witness :
  let s := gate_run world_single ["0000"; "1234"; "abcd"; "1111"] in
  attempt_count s = Z.of_nat (List.length ["0000"; "1234"; "abcd"; "1111"]) /\
  List.length (filter is_lockout_box (trace s))
  = (List.length ["0000"; "1234"; "abcd"; "1111"] - 2)%nat /\
  filter is_timer (trace s) = [].
Proof.
  apply (wrong_passwords_are_counted world_single
           ["0000"; "1234"; "abcd"; "1111"]).
  - repeat constructor.
  - vm_compute. reflexivity.
Defined.


